(** * utf8.py: conversion between UTF-8 encoded bytes and Unicode code points

    A shallow embedding of the codec of [utf8.py].  The script keeps every
    byte as a Python [str] of the characters '0' and '1', so bytes are
    [string]s here too; integers are Python's unbounded [int], hence [Z].
    A function that may raise returns a [result]; the generator
    [chunk_byte_sequence], which logs warnings and yields chunks as it goes,
    returns the trace of what it logged and yielded together with the way
    it ended.  [logging.warn] is the function of the Python 3 versions the
    script was written for, the same as [logging.warning]. *)

From Stdlib Require Import ZArith List String Ascii Bool Lia.
Import ListNotations.
Local Open Scope string_scope.
Local Open Scope Z_scope.

(** ** Exceptions *)

Inductive exn : Type :=
| ValueError
| TypeError
| AssertionError
| UnicodeEncodeError.

Inductive result (A : Type) : Type :=
| Ok (a : A)
| Raise (e : exn).
Arguments Ok {A} a.
Arguments Raise {A} e.

Definition bind {A B : Type} (r : result A) (k : A -> result B) : result B :=
  match r with
  | Ok a => k a
  | Raise e => Raise e
  end.

Notation "x <- r ;; k" := (bind r (fun x => k))
  (at level 61, r at next level, right associativity).

(** ** The Python built-ins the script calls *)

Module Py.

(** [len(s)] *)
Definition len (s : string) : Z := Z.of_nat (String.length s).

(** [s[n:]] for a literal [n >= 0] *)
Fixpoint drop (n : nat) (s : string) : string :=
  match n, s with
  | O, _ => s
  | S n', String _ s' => drop n' s'
  | S _, EmptyString => EmptyString
  end.

(** [s[start:stop]] for [0 <= start <= stop]: a slice is cut short at the
    end of the string, as [substring] is. *)
Definition slice (s : string) (start stop : Z) : string :=
  substring (Z.to_nat start) (Z.to_nat (stop - start)) s.

(** [c * n]: the empty string when [n <= 0] *)
Definition times (c : ascii) (n : Z) : string :=
  string_of_list_ascii (repeat c (Z.to_nat n)).

(** [s.startswith(p)] *)
Definition startswith (s p : string) : bool := String.prefix p s.

(** [s.count(c)] for a one-character [c] *)
Fixpoint count (c : ascii) (s : string) : Z :=
  match s with
  | EmptyString => 0
  | String a s' => (if Ascii.eqb a c then 1 else 0) + count c s'
  end.

(** [sep.join(l)] *)
Definition join (sep : string) (l : list string) : string :=
  String.concat sep l.

(** [range(0, stop, 8)] *)
Definition range8 (stop : Z) : list Z :=
  map (fun i => 8 * Z.of_nat i) (seq 0 (Z.to_nat ((stop + 7) / 8))).

(** [s.upper()] on 8-bit characters: the letters a-z change, and no other
    character of that range becomes a digit or a letter A-F. *)
Definition upper_char (c : ascii) : ascii :=
  let n := N_of_ascii c in
  if ((97 <=? n) && (n <=? 122))%N then ascii_of_N (n - 32) else c.

Fixpoint upper (s : string) : string :=
  match s with
  | EmptyString => EmptyString
  | String c s' => String (upper_char c) (upper s')
  end.

(** The digit characters of [bin] and [hex]. *)
Definition digit_char (d : Z) : ascii :=
  nth (Z.to_nat d) (list_ascii_of_string "0123456789abcdef") "?"%char.

(** The digits of [n >= 0] in base [base], most significant first; [fuel]
    bounds the number of digits. *)
Fixpoint digits_aux (base : Z) (fuel : nat) (n : Z) (acc : string) : string :=
  match fuel with
  | O => acc
  | S fuel' =>
      let acc' := String (digit_char (n mod base)) acc in
      if n / base =? 0 then acc' else digits_aux base fuel' (n / base) acc'
  end.

Definition digits (base n : Z) : string :=
  digits_aux base (S (Z.to_nat (Z.log2 n))) n EmptyString.

(** [bin(n)] and [hex(n)] *)
Definition bin (n : Z) : string :=
  if n <? 0 then "-0b" ++ digits 2 (- n) else "0b" ++ digits 2 n.

Definition hex (n : Z) : string :=
  if n <? 0 then "-0x" ++ digits 16 (- n) else "0x" ++ digits 16 n.

(** The value of a digit character: 0-9, then a-z and A-Z from 10 on. *)
Definition digit_value (c : ascii) : option Z :=
  let n := N_of_ascii c in
  if ((48 <=? n) && (n <=? 57))%N then Some (Z.of_N (n - 48))
  else if ((97 <=? n) && (n <=? 122))%N then Some (Z.of_N (n - 87))
  else if ((65 <=? n) && (n <=? 90))%N then Some (Z.of_N (n - 55))
  else None.

Fixpoint int_acc (base : Z) (s : string) (acc : Z) : result Z :=
  match s with
  | EmptyString => Ok acc
  | String c s' =>
      match digit_value c with
      | Some d => if d <? base then int_acc base s' (acc * base + d)
                  else Raise ValueError
      | None => Raise ValueError
      end
  end.

(** [int(s, base)] on a string of digit characters, which is what the
    script passes: hex input has gone through [clean_up_hex], and bit
    strings are made of '0' and '1'.  The empty string is a [ValueError].
    (Signs, underscores, blanks and a base prefix, which [int] also reads,
    are not digits here.) *)
Definition int (s : string) (base : Z) : result Z :=
  match s with
  | EmptyString => Raise ValueError
  | _ => int_acc base s 0
  end.

(** [chr(i)]: a character is kept as its code point. *)
Definition chr (i : Z) : result Z :=
  if (0 <=? i) && (i <=? 0x10FFFF) then Ok i else Raise ValueError.

(** [bytes(char, 'utf8')] for a one-character string: the UTF-8 codec of
    the language, with its strict error handler.  It refuses the
    surrogates U+D800..U+DFFF. *)
Definition utf8 (c : Z) : result (list Z) :=
  if c <? 0x80 then Ok [c]
  else if c <? 0x800 then
    Ok [Z.lor 0xC0 (Z.shiftr c 6); Z.lor 0x80 (Z.land c 0x3F)]
  else if c <? 0x10000 then
    if (0xD800 <=? c) && (c <=? 0xDFFF) then Raise UnicodeEncodeError
    else Ok [Z.lor 0xE0 (Z.shiftr c 12);
             Z.lor 0x80 (Z.land (Z.shiftr c 6) 0x3F);
             Z.lor 0x80 (Z.land c 0x3F)]
  else
    Ok [Z.lor 0xF0 (Z.shiftr c 18);
        Z.lor 0x80 (Z.land (Z.shiftr c 12) 0x3F);
        Z.lor 0x80 (Z.land (Z.shiftr c 6) 0x3F);
        Z.lor 0x80 (Z.land c 0x3F)].

(** ['{:9s}'.format(s)]: a string is aligned to the left of its field,
    the fill goes after it. *)
Definition format_9s (s : string) : string :=
  s ++ times " "%char (9 - len s).

(** [str(n)] for an integer. *)
Definition str (n : Z) : string :=
  if n <? 0 then "-" ++ digits 10 (- n) else digits 10 n.

(** [c in s] for a one-character [c] *)
Fixpoint contains (c : ascii) (s : string) : bool :=
  match s with
  | EmptyString => false
  | String a s' => Ascii.eqb a c || contains c s'
  end.

(** [s.split(sep)] for a one-character [sep]: [cur] is the piece being
    read; every separator ends a piece, empty or not. *)
Fixpoint split_sep_from (sep : ascii) (s cur : string) : list string :=
  match s with
  | EmptyString => [cur]
  | String c s' =>
      if Ascii.eqb c sep then cur :: split_sep_from sep s' EmptyString
      else split_sep_from sep s' (cur ++ String c EmptyString)
  end.

Definition split_sep (sep : ascii) (s : string) : list string :=
  split_sep_from sep s EmptyString.

(** The white space of [str.split()] among the 8-bit characters: tab to
    carriage return, the four separators 0x1C..0x1F, the space, 0x85 and
    the no-break space. *)
Definition is_space (c : ascii) : bool :=
  let n := N_of_ascii c in
  (((9 <=? n) && (n <=? 13)) || ((28 <=? n) && (n <=? 32))
   || (n =? 133) || (n =? 160))%N.

(** [s.split()]: the pieces between runs of white space, none empty. *)
Fixpoint split_from (s cur : string) : list string :=
  match s with
  | EmptyString => match cur with EmptyString => [] | _ => [cur] end
  | String c s' =>
      if is_space c then
        match cur with
        | EmptyString => split_from s' EmptyString
        | _ => cur :: split_from s' EmptyString
        end
      else split_from s' (cur ++ String c EmptyString)
  end.

Definition split (s : string) : list string := split_from s EmptyString.

(** [s.lstrip()] and [s.rstrip()] *)
Fixpoint lstrip (s : string) : string :=
  match s with
  | EmptyString => EmptyString
  | String c s' => if is_space c then lstrip s' else s
  end.

Fixpoint rstrip (s : string) : string :=
  match s with
  | EmptyString => EmptyString
  | String c s' =>
      match rstrip s' with
      | EmptyString => if is_space c then EmptyString else String c EmptyString
      | t => String c t
      end
  end.

(** The decimal digits of [int(s)], with single underscores allowed
    between digits; [after_digit] tells that the last character read was a
    digit. *)
Fixpoint dec_acc (s : string) (acc : Z) (after_digit : bool) : result Z :=
  match s with
  | EmptyString => if after_digit then Ok acc else Raise ValueError
  | String c s' =>
      if Ascii.eqb c "_"%char then
        if after_digit then dec_acc s' acc false else Raise ValueError
      else match digit_value c with
           | Some d => if d <? 10 then dec_acc s' (acc * 10 + d) true
                       else Raise ValueError
           | None => Raise ValueError
           end
  end.

(** [int(s)]: blanks around the number are dropped, a sign may come
    first. *)
Definition int_dec (s : string) : result Z :=
  match rstrip (lstrip s) with
  | String "-"%char t => match dec_acc t 0 false with
                         | Ok v => Ok (- v)
                         | Raise e => Raise e
                         end
  | String "+"%char t => dec_acc t 0 false
  | t => dec_acc t 0 false
  end.

End Py.

(** ** Regular expressions of the script *)

Module Re.

(** The leading run of '1' of a string, and what follows it. *)
Fixpoint span_ones (s : string) : string * string :=
  match s with
  | String "1"%char s' => let (ones, rest) := span_ones s' in
                          (String "1"%char ones, rest)
  | _ => (EmptyString, s)
  end.

(** [re.search(r'^(1+)0', s)]: group 1 of the match, if there is one. *)
Definition search_leader (s : string) : option string :=
  match span_ones s with
  | (String c ones, String "0"%char _) => Some (String c ones)
  | _ => None
  end.

(** [re.sub(r'^1+0', '', s)] *)
Definition sub_leader (s : string) : string :=
  match span_ones s with
  | (String _ _, String "0"%char rest) => rest
  | _ => s
  end.

(** [re.sub(r'[^0-9A-F]+', '', s)] *)
Definition is_upper_hex (c : ascii) : bool :=
  let n := N_of_ascii c in
  (((48 <=? n) && (n <=? 57)) || ((65 <=? n) && (n <=? 70)))%N.

Fixpoint sub_non_hex (s : string) : string :=
  match s with
  | EmptyString => EmptyString
  | String c s' =>
      if is_upper_hex c then String c (sub_non_hex s') else sub_non_hex s'
  end.

End Re.


(** ** The script: parsing the input *)

(** [clean_up_hex]: upper-case the token, then delete whatever is not
    0-9 or A-F. *)
Definition clean_up_hex (hex_input : string) : string :=
  let upper_input := Py.upper hex_input in
  Re.sub_non_hex upper_input.

(** [pad_binary]: zeros in front, up to a whole number of bytes. *)
Definition pad_binary (binary : string) : string :=
  let bin_len := Py.len binary in
  let num_bytes := (bin_len - 1) / 8 + 1 in
  let num_bits := num_bytes * 8 in
  let pad_bits := num_bits - bin_len in
  Py.times "0"%char pad_bits ++ binary.

(** [hex_to_binary] *)
Definition hex_to_binary (hex_input : string) : result string :=
  int_input <- Py.int hex_input 16 ;;
  let bin_input := Py.drop 2 (Py.bin int_input) in
  Ok (pad_binary bin_input).

(** [binary_to_bytes]: the slices [binary[start:start+8]]. *)
Definition binary_to_bytes (binary : string) : list string :=
  map (fun start => Py.slice binary start (start + 8))
      (Py.range8 (Py.len binary)).

(** The loop of [input_to_code_points] that builds [bin_input], for input
    type 'bytes' in format 'hex'. *)
Fixpoint bin_input_of_hex (bin_input : string) (inputs : list string)
  : result string :=
  match inputs with
  | [] => Ok bin_input
  | input_str :: rest =>
      let hex_input := clean_up_hex input_str in
      bits <- hex_to_binary hex_input ;;
      bin_input_of_hex (bin_input ++ bits) rest
  end.

(** ** The script: chunking a byte sequence *)

(** The three warnings of [chunk_byte_sequence], by their message:
    "not enough continuation bytes", "misplaced continuation byte" and
    "more than 4 bytes". *)
Inductive fault : Type :=
| too_few_continuation_bytes
| misplaced_continuation_byte
| too_many_bytes.

(** What the generator does that its caller can see: a call of
    [logging.warn], with the text put into the message, or a [yield]. *)
Inductive event : Type :=
| Warn (f : fault) (shown : string)
| Yield (chunk : list string).

(** The two local variables of the generator. *)
Record chunker : Type := Chunker {
  bytes_togo : Z;
  char_bytes : list string
}.

(** One turn of the [for] loop.  In the first branch the message is built
    from [' '.join(bytes_togo)], a [join] over an [int]: the call raises
    [TypeError] before anything is logged. *)
Definition chunk_step (st : chunker) (byte : string)
  : list event * result chunker :=
  let togo := bytes_togo st in
  let char_bytes := (char_bytes st ++ [byte])%list in
  if Py.startswith byte "0" then
    if togo >? 0 then ([], Raise TypeError)
    else ([Yield char_bytes], Ok (Chunker togo []))
  else if Py.startswith byte "11" then
    let warned := togo >? 0 in
    let evs := if warned
               then [Warn too_few_continuation_bytes (Py.join " " char_bytes)]
               else [] in
    let char_bytes := if warned then [] else char_bytes in
    match Re.search_leader byte with
    | None => (evs, Raise AssertionError)
    | Some leading_bits =>
        (evs, Ok (Chunker (Py.count "1"%char leading_bits - 1) char_bytes))
    end
  else if Py.startswith byte "10" then
    if togo =? 0 then
      ([Warn misplaced_continuation_byte byte], Ok (Chunker togo []))
    else
      let togo := togo - 1 in
      if togo =? 0 then
        (((if Z.of_nat (List.length char_bytes) >? 4
           then [Warn too_many_bytes (Py.join " " char_bytes)] else [])
            ++ [Yield char_bytes])%list,
         Ok (Chunker togo []))
      else ([], Ok (Chunker togo char_bytes))
  else ([], Ok (Chunker togo char_bytes)).

(** The loop, and the check made once the input is exhausted. *)
Fixpoint chunk_loop (st : chunker) (input_bytes : list string)
  : list event * result unit :=
  match input_bytes with
  | [] =>
      (if Z.of_nat (List.length (char_bytes st)) >? 0
       then [Warn too_few_continuation_bytes (Py.join " " (char_bytes st))]
       else [],
       Ok tt)
  | byte :: rest =>
      match chunk_step st byte with
      | (evs, Ok st') =>
          let (evs', ending) := chunk_loop st' rest in
          ((evs ++ evs')%list, ending)
      | (evs, Raise e) => (evs, Raise e)
      end
  end.

Definition chunk_byte_sequence (input_bytes : list string)
  : list event * result unit :=
  chunk_loop (Chunker 0 []) input_bytes.

(** The tests of the byte made by [chunk_step], read as a classification;
    [Unmatched] is a string that enters none of the three branches. *)
Inductive byte_class : Type :=
| Ascii
| Leader (n : Z)
| Continuation
| Unmatched.

Definition classify_byte (byte : string) : result byte_class :=
  if Py.startswith byte "0" then Ok Ascii
  else if Py.startswith byte "11" then
    match Re.search_leader byte with
    | None => Raise AssertionError
    | Some leading_bits => Ok (Leader (Py.count "1"%char leading_bits))
    end
  else if Py.startswith byte "10" then Ok Continuation
  else Ok Unmatched.

(** ** The script: from a chunk to its code point *)

(** The loop of [char_bytes_to_code_point] over [code_point_bits], which is
    [None] until the first byte has been seen.  (The [ValueError] branch
    logs the chunk before it raises.) *)
Fixpoint code_point_bits_of (code_point_bits : option string)
  (bytes : list string) : result (option string) :=
  match bytes with
  | [] => Ok code_point_bits
  | byte :: rest =>
      match code_point_bits with
      | None =>
          if Py.startswith byte "0" then Ok (Some byte)
          else if Py.startswith byte "11"
          then code_point_bits_of (Some (Re.sub_leader byte)) rest
          else Raise ValueError
      | Some bits =>
          if Py.startswith byte "10"
          then code_point_bits_of (Some (bits ++ Py.drop 2 byte)) rest
          else Raise AssertionError
      end
  end.

(** [char_bytes_to_code_point]; [int(None, 2)] is a [TypeError]. *)
Definition char_bytes_to_code_point (char_bytes : list string) : result Z :=
  code_point_bits <- code_point_bits_of None char_bytes ;;
  match code_point_bits with
  | None => Raise TypeError
  | Some bits => Py.int bits 2
  end.

(** What [input_to_code_points] yields for input type 'bytes': the caller
    pulls the chunks one at a time, so the warnings and code points come in
    the order of the chunker's trace, and an exception of either function
    ends the stream. *)
Inductive output : Type :=
| Logged (f : fault) (shown : string)
| CodePoint (code_point : Z).

Fixpoint code_points_of_trace (evs : list event) (ending : result unit)
  : list output * result unit :=
  match evs with
  | [] => ([], ending)
  | Warn f shown :: evs' =>
      let (outs, r) := code_points_of_trace evs' ending in
      (Logged f shown :: outs, r)
  | Yield chunk :: evs' =>
      match char_bytes_to_code_point chunk with
      | Ok code_point =>
          let (outs, r) := code_points_of_trace evs' ending in
          (CodePoint code_point :: outs, r)
      | Raise e => ([], Raise e)
      end
  end.

Definition input_to_code_points_bytes_hex (inputs : list string)
  : list output * result unit :=
  match bin_input_of_hex "" inputs with
  | Raise e => ([], Raise e)
  | Ok bin_input =>
      let input_bytes := binary_to_bytes bin_input in
      let (evs, ending) := chunk_byte_sequence input_bytes in
      code_points_of_trace evs ending
  end.

(** ** The script: formatting the output *)

(** [pad_hex] *)
Definition pad_hex (hex_input : string) (pad_to : option Z) : string :=
  let hex_len := Py.len hex_input in
  let pad_to := match pad_to with
                | Some p => p
                | None => if hex_len <=? 4 then 4 else 6
                end in
  let pad_chars := pad_to - hex_len in
  Py.times "0"%char pad_chars ++ hex_input.

(** The body of the loop of [code_points_to_output] for output type 'chars'
    in format 'hex' (the same two lines open [format_code_point_output]). *)
Definition code_point_hex (code_point : Z) : string :=
  let code_point_hex := Py.upper (Py.drop 2 (Py.hex code_point)) in
  pad_hex code_point_hex None.

Definition code_points_to_output_chars_hex (code_points : list Z) : string :=
  Py.join " " (map code_point_hex code_points).

(** Output type 'bytes': [chr] and then the codec. *)
Definition code_point_char_bytes (code_point : Z) : result (list Z) :=
  char <- Py.chr code_point ;;
  Py.utf8 char.

(** The strings collected in [output_strs] for one code point, format
    'hex', and the line made of them. *)
Definition code_point_output_strs_hex (code_point : Z) : result (list string) :=
  char_bytes <- code_point_char_bytes code_point ;;
  Ok (map (fun byte => Py.upper (Py.drop 2 (Py.hex byte))) char_bytes).

Definition code_point_to_output_bytes_hex (code_point : Z) : result string :=
  output_strs <- code_point_output_strs_hex code_point ;;
  Ok (Py.join " " output_strs).

(** A Python string that may hold any character, as its code points. *)
Definition ustring : Type := list Z.

Definition ustr (s : string) : ustring :=
  map (fun c => Z.of_N (N_of_ascii c)) (list_ascii_of_string s).

Section Desc.

(** [unicodedata.name] on a character: the name in the Unicode database,
    if the character has one; the call raises [ValueError] if not. *)
Variable unicodedata_name : Z -> option string.

(** [format_code_point_output] *)
Definition format_code_point_output (code_point_int : Z) : result ustring :=
  let code_point_hex := Py.upper (Py.drop 2 (Py.hex code_point_int)) in
  let code_point_hex := pad_hex code_point_hex None in
  character <- Py.chr code_point_int ;;
  let hex_col := "U+" ++ code_point_hex ++ ":" in
  match unicodedata_name character with
  | None => Raise ValueError
  | Some name =>
      Ok (ustr (Py.format_9s hex_col ++ " ") ++ [character]
            ++ ustr (" (" ++ name ++ ")"))%list
  end.

End Desc.

(** An 8-bit value the way the chunker receives it, as the eight
    characters [hex_to_binary] makes of it. *)
Definition byte_bits (b : Z) : string := pad_binary (Py.drop 2 (Py.bin b)).

(** ** The script: reading the input *)

(** [comma_or_space_split] *)
Definition comma_or_space_split (in_str : string) : list string :=
  if Py.contains ","%char in_str then Py.split_sep ","%char in_str
  else Py.split in_str.

(** The input types and formats the argument parser lets through. *)
Inductive input_type : Type := InBytes | InChars.
Inductive input_format : Type := InHex | InInt | InStr.

(** [get_input]: the arguments, or the lines of the standard input when
    there is no argument; in format 'str' each character is yielded on its
    own, else each piece of [comma_or_space_split]. *)
Definition get_input (input_args stdin : list string) (format : input_format)
  : list string :=
  let input_chunks := match input_args with [] => stdin | _ => input_args end in
  flat_map (fun input_chunk =>
              match format with
              | InStr => map (fun char => String char "")
                             (list_ascii_of_string input_chunk)
              | _ => comma_or_space_split input_chunk
              end)
           input_chunks.

(** The loop of [input_to_code_points] that builds [bin_input], in any
    format: 'int' appends [bin(integer)[2:]] as it is, 'str' appends
    nothing.  ([bin_input_of_hex] is this loop in format 'hex'.) *)
Fixpoint bin_input_of (input_format : input_format) (bin_input : string)
  (inputs : list string) : result string :=
  match inputs with
  | [] => Ok bin_input
  | input_str :: rest =>
      match input_format with
      | InHex =>
          let hex_input := clean_up_hex input_str in
          bits <- hex_to_binary hex_input ;;
          bin_input_of input_format (bin_input ++ bits) rest
      | InInt =>
          integer <- Py.int_dec input_str ;;
          bin_input_of input_format
            (bin_input ++ Py.drop 2 (Py.bin integer)) rest
      | InStr => bin_input_of input_format bin_input rest
      end
  end.

(** The code points yielded for input type 'chars' in the formats 'hex'
    and 'int', one for each piece, up to the first piece that [int]
    refuses.  (Format 'str' has a loop of its own; here it would yield
    nothing.) *)
Fixpoint code_points_of_strs (input_format : input_format)
  (inputs : list string) : list output * result unit :=
  match inputs with
  | [] => ([], Ok tt)
  | input_str :: rest =>
      let yielded := match input_format with
                     | InHex => Some (Py.int (clean_up_hex input_str) 16)
                     | InInt => Some (Py.int_dec input_str)
                     | InStr => None
                     end in
      match yielded with
      | Some (Ok code_point) =>
          let (outs, r) := code_points_of_strs input_format rest in
          (CodePoint code_point :: outs, r)
      | Some (Raise e) => ([], Raise e)
      | None => code_points_of_strs input_format rest
      end
  end.

(** [ord(char)] of a one-character string. *)
Definition ord (char : string) : Z :=
  match char with
  | String c _ => Z.of_N (N_of_ascii c)
  | EmptyString => 0
  end.

(** [input_to_code_points] *)
Definition input_to_code_points (input_args stdin : list string)
  (input_type : input_type) (input_format : input_format)
  : list output * result unit :=
  let inputs := get_input input_args stdin input_format in
  match input_type with
  | InBytes =>
      match bin_input_of input_format "" inputs with
      | Raise e => ([], Raise e)
      | Ok bin_input =>
          let input_bytes := binary_to_bytes bin_input in
          let (evs, ending) := chunk_byte_sequence input_bytes in
          code_points_of_trace evs ending
      end
  | InChars =>
      match input_format with
      | InStr => (map (fun char => CodePoint (ord char)) inputs, Ok tt)
      | _ => code_points_of_strs input_format inputs
      end
  end.

(** ** The script: the lines of output type 'bytes' *)

Inductive output_format : Type := OutHex | OutInt | OutStr | OutDesc.

(** The line for one code point: in a format that is neither 'hex' nor
    'int' nothing is collected and the line is empty.
    ([code_point_to_output_bytes_hex] is this line in format 'hex'.) *)
Definition code_point_to_output_bytes (output_format : output_format)
  (code_point : Z) : result string :=
  char_bytes <- code_point_char_bytes code_point ;;
  let output_strs :=
    match output_format with
    | OutHex => map (fun byte => Py.upper (Py.drop 2 (Py.hex byte))) char_bytes
    | OutInt => map Py.str char_bytes
    | _ => []
    end in
  Ok (Py.join " " output_strs).

(** The lines yielded for a list of code points, up to the first code
    point that cannot be encoded. *)
Fixpoint code_points_to_output_bytes (output_format : output_format)
  (code_points : list Z) : list string * result unit :=
  match code_points with
  | [] => ([], Ok tt)
  | code_point :: rest =>
      match code_point_to_output_bytes output_format code_point with
      | Ok line =>
          let (lines, r) := code_points_to_output_bytes output_format rest in
          (line :: lines, r)
      | Raise e => ([], Raise e)
      end
  end.


(** ** Notions used in the statements *)

(** The characters of a string, for statements about each of them. *)
Definition chars (s : string) : list ascii := list_ascii_of_string s.

(** The numbers from 0 to [n - 1]: properties of bytes are checked on each
    of them. *)
Definition below (n : nat) : list Z := map Z.of_nat (seq 0 n).

(** What the bits of [b] say about the class [c] given to it. *)
Definition class_of_bits (b : Z) (c : byte_class) : Prop :=
  match c with
  | Ascii => Z.testbit b 7 = false
  | Continuation => Z.testbit b 7 = true /\ Z.testbit b 6 = false
  | Leader n =>
      2 <= n <= 7
      /\ (forall i, 0 <= i < n -> Z.testbit b (7 - i) = true)
      /\ Z.testbit b (7 - n) = false
  | Unmatched => False
  end.

(** The same, as a test. *)
Definition class_of_bits_b (b : Z) (c : byte_class) : bool :=
  match c with
  | Ascii => negb (Z.testbit b 7)
  | Continuation => Z.testbit b 7 && negb (Z.testbit b 6)
  | Leader n =>
      (2 <=? n) && (n <=? 7)
      && forallb (fun i => Z.testbit b (7 - i)) (below (Z.to_nat n))
      && negb (Z.testbit b (7 - n))
  | Unmatched => false
  end.

(** [b] is classified, and by its bits. *)
Definition classified_b (b : Z) : bool :=
  match classify_byte (byte_bits b) with
  | Ok c => class_of_bits_b b c
  | Raise _ => false
  end.

(** Tests of a result against the value expected. *)
Definition is_ok (r : result Z) (v : Z) : bool :=
  match r with
  | Ok x => x =? v
  | Raise _ => false
  end.

Definition has_class (r : result byte_class) (c : byte_class) : bool :=
  match r, c with
  | Ok Ascii, Ascii => true
  | Ok (Leader n), Leader m => n =? m
  | Ok Continuation, Continuation => true
  | Ok Unmatched, Unmatched => true
  | _, _ => false
  end.

(** A byte 0xxxxxxx is Ascii and reads as its own value. *)
Definition ascii_byte_b (b : Z) : bool :=
  has_class (classify_byte (byte_bits b)) Ascii
  && Py.startswith (byte_bits b) "0"
  && is_ok (Py.int (byte_bits b) 2) b.

(** A byte 10xxxxxx carrying the six bits [v]. *)
Definition continuation (v : Z) : string := byte_bits (Z.lor 0x80 v).

(** It is a Continuation, and the six characters after "10" read as [v]. *)
Definition continuation_b (v : Z) : bool :=
  has_class (classify_byte (continuation v)) Continuation
  && Py.startswith (continuation v) "10"
  && (String.length (Py.drop 2 (continuation v)) =? 6)%nat
  && is_ok (Py.int_acc 2 (Py.drop 2 (continuation v)) 0) v.

(** A leader byte: the prefix [p] of [n] ones and a zero, then the bits
    [a]. *)
Definition leader (p a : Z) : string := byte_bits (Z.lor p a).

(** It is a Leader([n]), and what [sub_leader] keeps of it reads as [a]. *)
Definition leader_b (p n a : Z) : bool :=
  has_class (classify_byte (leader p a)) (Leader n)
  && negb (Py.startswith (leader p a) "0")
  && Py.startswith (leader p a) "11"
  && is_ok (Py.int_acc 2 (Re.sub_leader (leader p a)) 0) a.

(** The same for every [a] below [bound]. *)
Definition leader_byte (p n bound : Z) : Prop :=
  forall a, 0 <= a < bound ->
    classify_byte (leader p a) = Ok (Leader n)
    /\ Py.startswith (leader p a) "0" = false
    /\ Py.startswith (leader p a) "11" = true
    /\ Py.int_acc 2 (Re.sub_leader (leader p a)) 0 = Ok a.

(** The bits gathered from a continuation byte: six more binary digits. *)
Definition add_six (acc v : Z) : Z := acc * 64 + v.

(** The surrogate range. *)
Definition surrogate (cp : Z) : Prop := 0xD800 <= cp <= 0xDFFF.

(** The number of bytes of the length table. *)
Definition utf8_length (cp : Z) : nat :=
  if cp <=? 0x7F then 1 else if cp <=? 0x7FF then 2
  else if cp <=? 0xFFFF then 3 else 4.

(** A field of 9 columns with the fill put before the text (text
    "left-padded to 9 columns"), to compare with ['{:9s}']. *)
Definition left_padded_9 (s : string) : string :=
  Py.times " "%char (9 - Py.len s) ++ s.

(** An excerpt of the Unicode database: the name of U+0041; U+0000, a
    control character, has none. *)
Definition unicodedata_name_A (c : Z) : option string :=
  if c =? 0x41 then Some "LATIN CAPITAL LETTER A" else None.

(** The string printed for a byte, in format 'hex'. *)
Definition byte_hex (byte : Z) : string := Py.upper (Py.drop 2 (Py.hex byte)).

(** Read back by [hex_to_binary], it is the eight bits of the byte. *)
Definition byte_hex_b (b : Z) : bool :=
  match hex_to_binary (clean_up_hex (byte_hex b)) with
  | Ok bits => String.eqb bits (byte_bits b)
  | Raise _ => false
  end
  && (String.length (byte_bits b) =? 8)%nat.

(** A piece of input that [comma_or_space_split] leaves whole: not empty,
    without white space or comma. *)
Definition plain (t : string) : bool :=
  negb (String.eqb t "")
  && forallb (fun c => negb (Py.is_space c) && negb (Ascii.eqb c ","%char))
             (chars t).

(** White space only. *)
Definition blank (s : string) : bool := forallb Py.is_space (chars s).

(** The end of a line read from the standard input. *)
Definition newline : string := String "010"%char "".

(** A code point the encoder takes. *)
Definition encodable (cp : Z) : Prop := 0 <= cp <= 0x10FFFF /\ ~ surrogate cp.

(** The bytes of a code point, none if it is refused. *)
Definition char_bytes_of (cp : Z) : list Z :=
  match code_point_char_bytes cp with
  | Ok char_bytes => char_bytes
  | Raise _ => []
  end.

(** The warning given with a chunk of more than 4 bytes. *)
Definition too_long (chunk : list string) : list event :=
  if Z.of_nat (List.length chunk) >? 4
  then [Warn too_many_bytes (Py.join " " chunk)] else [].

(** No code point among the outputs. *)
Definition no_code_point (outs : list output) : bool :=
  forallb (fun o => match o with CodePoint _ => false | Logged _ _ => true end)
          outs.

(** A decimal digit. *)
Definition is_decimal (c : ascii) : bool :=
  let n := N_of_ascii c in ((48 <=? n) && (n <=? 57))%N.

(** Tests run on every byte: the string printed for it in format 'hex'
    is left whole by the splitting; from 128 on, [bin] gives the eight bits
    of the byte. *)
Definition byte_hex_plain_b (b : Z) : bool := plain (byte_hex b).

Definition bin_whole_b (b : Z) : bool :=
  (b <? 128) || String.eqb (Py.drop 2 (Py.bin b)) (byte_bits b).

(** A byte from 1 to 127 printed in format 'int' and given back as input
    of type 'bytes' in that format: no code point comes out. *)
Definition int_byte_lost_b (b : Z) : bool :=
  (b =? 0)
  || (match code_point_to_output_bytes OutInt b with
      | Ok line => String.eqb line (Py.str b)
      | Raise _ => false
      end
      && no_code_point
           (fst (input_to_code_points [Py.str b] [] InBytes InInt))).

(** The bytes a single piece of hexadecimal input stands for, none if it
    is refused. *)
Definition token_bytes (input_str : string) : list string :=
  match hex_to_binary (clean_up_hex input_str) with
  | Ok bits => binary_to_bytes bits
  | Raise _ => []
  end.

(** The string printed for a byte has one digit below 16, else two. *)
Definition byte_hex_width_b (b : Z) : bool :=
  Nat.eqb (String.length (byte_hex b)) (if b <? 16 then 1%nat else 2%nat).

(** * Properties *)

(** ** Strings *)

Lemma append_nil_r (s : string) : s ++ "" = s.
Proof. induction s as [|c s IH]; simpl; [reflexivity | now rewrite IH]. Qed.

Lemma append_assoc (s1 s2 s3 : string) : (s1 ++ s2) ++ s3 = s1 ++ (s2 ++ s3).
Proof. induction s1 as [|c s1 IH]; simpl; [reflexivity | now rewrite IH]. Qed.

Lemma length_append (s1 s2 : string) :
  String.length (s1 ++ s2) = (String.length s1 + String.length s2)%nat.
Proof. induction s1 as [|c s1 IH]; simpl; [reflexivity | now rewrite IH]. Qed.

Lemma length_times (c : ascii) (n : Z) :
  String.length (Py.times c n) = Z.to_nat n.
Proof.
  unfold Py.times. induction (Z.to_nat n) as [|k IH]; simpl;
    [reflexivity | now rewrite IH].
Qed.

Lemma length_upper (s : string) : String.length (Py.upper s) = String.length s.
Proof. induction s as [|c s IH]; simpl; [reflexivity | now rewrite IH]. Qed.

Lemma chars_append (s1 s2 : string) :
  chars (s1 ++ s2) = (chars s1 ++ chars s2)%list.
Proof.
  unfold chars. induction s1 as [|c s1 IH]; simpl;
    [reflexivity | now rewrite IH].
Qed.

Lemma chars_times (c : ascii) (n : Z) : Forall (eq c) (chars (Py.times c n)).
Proof.
  unfold chars, Py.times. rewrite list_ascii_of_string_of_list_ascii.
  induction (Z.to_nat n); simpl; constructor; auto.
Qed.

(** ** Checking a property on every number below a bound *)

Lemma forallb_below (P : Z -> bool) (n : nat) :
  forallb P (below n) = true ->
  forall z, 0 <= z < Z.of_nat n -> P z = true.
Proof.
  intros H z Hz. rewrite forallb_forall in H. apply H.
  unfold below. apply in_map_iff. exists (Z.to_nat z). split.
  - lia.
  - apply in_seq. lia.
Qed.

(** ** Digits *)

Lemma digit_value_upper (c : ascii) :
  Py.digit_value (Py.upper_char c) = Py.digit_value c.
Proof.
  destruct c as [[] [] [] [] [] [] [] []]; reflexivity.
Qed.

Lemma digit_value_nonneg (c : ascii) (d : Z) :
  Py.digit_value c = Some d -> 0 <= d.
Proof.
  unfold Py.digit_value.
  repeat match goal with |- context [if ?b then _ else _] => destruct b end;
    intros H; inversion H; lia.
Qed.

Lemma digit_char_value (d : Z) :
  0 <= d < 16 -> Py.digit_value (Py.digit_char d) = Some d.
Proof.
  intros H.
  assert (E : (match Py.digit_value (Py.digit_char d) with
               | Some v => v =? d | None => false end) = true).
  { revert d H.
    apply (forallb_below
             (fun d => match Py.digit_value (Py.digit_char d) with
                       | Some v => v =? d | None => false end) 16).
    vm_compute. reflexivity. }
  destruct (Py.digit_value (Py.digit_char d)); [|discriminate].
  apply Z.eqb_eq in E. now subst.
Qed.

Lemma digit_char_upper_hex (d : Z) :
  0 <= d < 16 -> Re.is_upper_hex (Py.upper_char (Py.digit_char d)) = true.
Proof.
  revert d.
  apply (forallb_below
           (fun d => Re.is_upper_hex (Py.upper_char (Py.digit_char d))) 16).
  vm_compute. reflexivity.
Qed.

Lemma is_upper_hex_value (c : ascii) :
  Re.is_upper_hex c = true -> exists d, Py.digit_value c = Some d /\ 0 <= d < 16.
Proof.
  destruct c as [[] [] [] [] [] [] [] []]; try discriminate; intros _;
    eexists; (split; [cbv; reflexivity | lia]).
Qed.

Lemma int_acc_app (base : Z) (s1 s2 : string) (acc : Z) :
  Py.int_acc base (s1 ++ s2) acc
  = bind (Py.int_acc base s1 acc) (Py.int_acc base s2).
Proof.
  revert acc. induction s1 as [|c s1 IH]; intros acc; simpl.
  - reflexivity.
  - destruct (Py.digit_value c) as [d|]; [|reflexivity].
    destruct (d <? base); [apply IH | reflexivity].
Qed.

Lemma int_acc_upper (base : Z) (s : string) (acc : Z) :
  Py.int_acc base (Py.upper s) acc = Py.int_acc base s acc.
Proof.
  revert acc. induction s as [|c s IH]; intros acc; simpl.
  - reflexivity.
  - rewrite digit_value_upper.
    destruct (Py.digit_value c) as [d|]; [|reflexivity].
    destruct (d <? base); [apply IH | reflexivity].
Qed.

(** The accumulator only shifts the result. *)
Lemma int_acc_shift (base : Z) (s : string) (acc acc' v : Z) :
  Py.int_acc base s acc = Ok v ->
  Py.int_acc base s acc'
  = Ok (v + (acc' - acc) * base ^ Z.of_nat (String.length s)).
Proof.
  revert acc acc' v. induction s as [|c s IH]; intros acc acc' v; simpl String.length.
  - simpl. intros H. inversion H. f_equal. lia.
  - simpl Py.int_acc. destruct (Py.digit_value c) as [d|]; [|discriminate].
    destruct (d <? base); [|discriminate].
    intros H. rewrite (IH _ (acc' * base + d) _ H). f_equal.
    rewrite Nat2Z.inj_succ, Z.pow_succ_r by lia. ring.
Qed.

Lemma int_acc_nonneg (base : Z) (s : string) (acc v : Z) :
  0 <= base -> 0 <= acc -> Py.int_acc base s acc = Ok v -> 0 <= v.
Proof.
  intros Hb. revert acc. induction s as [|c s IH]; intros acc Ha; simpl.
  - intros H. inversion H. lia.
  - destruct (Py.digit_value c) as [d|] eqn:E; [|discriminate].
    destruct (d <? base); [|discriminate].
    apply IH. apply digit_value_nonneg in E. nia.
Qed.

Lemma int_acc_zeros (base : Z) (n : Z) (s : string) :
  1 < base -> Py.int_acc base (Py.times "0"%char n ++ s) 0 = Py.int_acc base s 0.
Proof.
  intros Hb. unfold Py.times.
  induction (Z.to_nat n) as [|k IH]; simpl; [reflexivity|].
  change (Py.digit_value "0"%char) with (Some 0).
  destruct (Z.ltb_spec 0 base); [|lia]. simpl. exact IH.
Qed.

Section Digits.

Variable base : Z.
Hypothesis base_range : 2 <= base <= 16.

Lemma digits_aux_app (fuel : nat) (n : Z) (acc : string) :
  Py.digits_aux base fuel n acc = Py.digits_aux base fuel n "" ++ acc.
Proof.
  revert n acc. induction fuel as [|fuel IH]; intros n acc; simpl.
  - reflexivity.
  - destruct (n / base =? 0); [reflexivity|].
    rewrite IH. rewrite (IH _ (String _ "")). now rewrite append_assoc.
Qed.

Lemma div_base_bound (n : Z) (k : nat) :
  0 <= n < base ^ Z.of_nat (S k) -> 0 <= n / base < base ^ Z.of_nat k.
Proof.
  intros H. rewrite Nat2Z.inj_succ, Z.pow_succ_r in H by lia. split.
  - apply Z.div_pos; lia.
  - apply Z.div_lt_upper_bound; lia.
Qed.

Lemma int_acc_digit (acc d : Z) :
  0 <= d < base ->
  Py.int_acc base (String (Py.digit_char d) "") acc = Ok (acc * base + d).
Proof.
  intros H. simpl. rewrite digit_char_value by lia.
  destruct (Z.ltb_spec d base); [reflexivity | lia].
Qed.

Lemma digits_aux_value (fuel : nat) (n : Z) :
  0 <= n < base ^ Z.of_nat fuel ->
  Py.int_acc base (Py.digits_aux base fuel n "") 0 = Ok n.
Proof.
  revert n. induction fuel as [|fuel IH]; intros n H.
  - simpl in *. f_equal. lia.
  - simpl Py.digits_aux.
    assert (Hm : 0 <= n mod base < base) by (apply Z.mod_pos_bound; lia).
    destruct (Z.eqb_spec (n / base) 0) as [E|E].
    + rewrite int_acc_digit by lia. f_equal.
      pose proof (Z.div_mod n base). lia.
    + rewrite digits_aux_app, int_acc_app.
      rewrite (IH _ (div_base_bound _ _ H)). cbn [bind].
      rewrite int_acc_digit by lia. f_equal.
      pose proof (Z.div_mod n base). lia.
Qed.

Lemma digits_aux_length_le (fuel : nat) (n : Z) (k : nat) :
  0 <= n < base ^ Z.of_nat k -> (1 <= k)%nat ->
  (String.length (Py.digits_aux base fuel n "") <= k)%nat.
Proof.
  revert n k. induction fuel as [|fuel IH]; intros n k H Hk.
  - simpl. lia.
  - simpl Py.digits_aux. destruct (Z.eqb_spec (n / base) 0) as [E|E].
    + simpl. lia.
    + rewrite digits_aux_app, length_append. simpl String.length.
      destruct k as [|k]; [lia|].
      destruct k as [|k].
      * exfalso. apply E. apply Z.div_small. simpl in H. lia.
      * specialize (IH (n / base) (S k) (div_base_bound _ _ H)). lia.
Qed.

Lemma digits_aux_length_gt (fuel : nat) (n : Z) (k : nat) :
  base ^ Z.of_nat k <= n < base ^ Z.of_nat fuel ->
  (k < String.length (Py.digits_aux base fuel n ""))%nat.
Proof.
  revert n k. induction fuel as [|fuel IH]; intros n k H.
  - exfalso. assert (0 < base ^ Z.of_nat k) by (apply Z.pow_pos_nonneg; lia).
    simpl in H. lia.
  - simpl Py.digits_aux.
    assert (Hn : 0 <= n).
    { assert (0 < base ^ Z.of_nat k) by (apply Z.pow_pos_nonneg; lia). lia. }
    destruct k as [|k].
    + destruct (n / base =? 0); [simpl; lia|].
      rewrite digits_aux_app, length_append. simpl. lia.
    + assert (Hq : base ^ Z.of_nat k <= n / base).
      { apply Z.div_le_lower_bound; [lia|].
        rewrite Nat2Z.inj_succ, Z.pow_succ_r in H by lia. lia. }
      assert (0 < base ^ Z.of_nat k) by (apply Z.pow_pos_nonneg; lia).
      destruct (Z.eqb_spec (n / base) 0) as [E|E]; [lia|].
      rewrite digits_aux_app, length_append. simpl String.length.
      assert (Hd : 0 <= n / base < base ^ Z.of_nat fuel)
        by (apply div_base_bound; lia).
      specialize (IH (n / base) k (conj Hq (proj2 Hd))). lia.
Qed.

Lemma digits_aux_chars (fuel : nat) (n : Z) :
  Forall (fun c => Re.is_upper_hex (Py.upper_char c) = true)
         (chars (Py.digits_aux base fuel n "")).
Proof.
  revert n. induction fuel as [|fuel IH]; intros n.
  - constructor.
  - simpl Py.digits_aux.
    assert (Hm : 0 <= n mod base < base) by (apply Z.mod_pos_bound; lia).
    assert (Hc : Re.is_upper_hex (Py.upper_char (Py.digit_char (n mod base)))
                 = true) by (apply digit_char_upper_hex; lia).
    destruct (n / base =? 0).
    + repeat constructor. exact Hc.
    + rewrite digits_aux_app, chars_append. apply Forall_app. split.
      * apply IH.
      * repeat constructor. exact Hc.
Qed.

Lemma fuel_enough (n : Z) :
  0 <= n -> n < base ^ Z.of_nat (S (Z.to_nat (Z.log2 n))).
Proof.
  intros Hn. rewrite Nat2Z.inj_succ, Z2Nat.id by apply Z.log2_nonneg.
  apply Z.lt_le_trans with (2 ^ Z.succ (Z.log2 n)).
  - destruct (Z.eq_dec n 0) as [->|]; [reflexivity|].
    apply Z.log2_spec. lia.
  - apply Z.pow_le_mono_l. lia.
Qed.

Lemma digits_value (n : Z) :
  0 <= n -> Py.int_acc base (Py.digits base n) 0 = Ok n.
Proof.
  intros Hn. apply digits_aux_value. split; [lia | now apply fuel_enough].
Qed.

Lemma digits_length_le (n : Z) (k : nat) :
  0 <= n < base ^ Z.of_nat k -> (1 <= k)%nat ->
  (String.length (Py.digits base n) <= k)%nat.
Proof. apply digits_aux_length_le. Qed.

Lemma digits_length_gt (n : Z) (k : nat) :
  base ^ Z.of_nat k <= n -> (k < String.length (Py.digits base n))%nat.
Proof.
  intros H. apply digits_aux_length_gt. split; [lia|].
  apply fuel_enough.
  assert (0 < base ^ Z.of_nat k) by (apply Z.pow_pos_nonneg; lia). lia.
Qed.

Lemma digits_length_pos (n : Z) : (1 <= String.length (Py.digits base n))%nat.
Proof.
  unfold Py.digits. simpl Py.digits_aux.
  destruct (n / base =? 0); [simpl; lia|].
  rewrite digits_aux_app, length_append. simpl. lia.
Qed.

End Digits.

Lemma drop_bin (n : Z) : 0 <= n -> Py.drop 2 (Py.bin n) = Py.digits 2 n.
Proof.
  intros H. unfold Py.bin. destruct (Z.ltb_spec n 0); [lia | reflexivity].
Qed.

Lemma drop_hex (n : Z) : 0 <= n -> Py.drop 2 (Py.hex n) = Py.digits 16 n.
Proof.
  intros H. unfold Py.hex. destruct (Z.ltb_spec n 0); [lia | reflexivity].
Qed.

Lemma int_nonempty (s : string) (base : Z) :
  (1 <= String.length s)%nat -> Py.int s base = Py.int_acc base s 0.
Proof. destruct s; simpl; [lia | reflexivity]. Qed.

Lemma chars_upper (s : string) : chars (Py.upper s) = map Py.upper_char (chars s).
Proof.
  unfold chars. induction s as [|c s IH]; simpl; [reflexivity | now rewrite IH].
Qed.

Lemma upper_digits_chars (base n : Z) :
  2 <= base <= 16 ->
  Forall (fun c => Re.is_upper_hex c = true) (chars (Py.upper (Py.digits base n))).
Proof.
  intros Hb. rewrite chars_upper. apply Forall_map.
  apply digits_aux_chars. exact Hb.
Qed.

(** ** Formatting a code point in hexadecimal *)

Lemma code_point_hex_eq (cp : Z) :
  0 <= cp ->
  code_point_hex cp = pad_hex (Py.upper (Py.digits 16 cp)) None.
Proof. intros H. unfold code_point_hex. now rewrite drop_hex. Qed.

Lemma pad_hex_chars (s : string) (pad_to : option Z) :
  Forall (fun c => Re.is_upper_hex c = true) (chars s) ->
  Forall (fun c => Re.is_upper_hex c = true) (chars (pad_hex s pad_to)).
Proof.
  intros H. unfold pad_hex. rewrite chars_append. apply Forall_app. split.
  - eapply Forall_impl; [|apply chars_times]. now intros c <-.
  - exact H.
Qed.

Lemma pad_hex_value (s : string) (pad_to : option Z) :
  (1 <= String.length s)%nat -> Py.int (pad_hex s pad_to) 16 = Py.int s 16.
Proof.
  intros H. unfold pad_hex. rewrite !int_nonempty.
  - now apply int_acc_zeros.
  - exact H.
  - rewrite length_append. lia.
Qed.

Lemma pad_hex_length (s : string) :
  String.length (pad_hex s None)
  = if (String.length s <=? 4)%nat then 4%nat
    else Nat.max 6 (String.length s).
Proof.
  unfold pad_hex, Py.len. rewrite length_append, length_times.
  destruct (Nat.leb_spec (String.length s) 4);
    destruct (Z.leb_spec (Z.of_nat (String.length s)) 4); lia.
Qed.

Lemma code_point_hex_length (cp : Z) :
  0 <= cp <= 0x10FFFF ->
  String.length (code_point_hex cp) = if cp <? 2 ^ 16 then 4%nat else 6%nat.
Proof.
  intros Hcp. rewrite code_point_hex_eq by lia.
  assert (Hb : 2 <= 16 <= 16) by lia.
  rewrite pad_hex_length, length_upper.
  destruct (Z.ltb_spec cp (2 ^ 16)) as [Hlt|Hge].
  - pose proof (digits_length_le 16 Hb cp 4) as Hle.
    destruct (Nat.leb_spec (String.length (Py.digits 16 cp)) 4);
      [reflexivity|].
    assert (String.length (Py.digits 16 cp) <= 4)%nat
      by (apply Hle; [change (16 ^ Z.of_nat 4) with (2 ^ 16)|]; lia).
    lia.
  - pose proof (digits_length_gt 16 Hb cp 4) as Hgt.
    pose proof (digits_length_le 16 Hb cp 6) as Hle.
    assert (4 < String.length (Py.digits 16 cp))%nat
      by (apply Hgt; change (16 ^ Z.of_nat 4) with (2 ^ 16); lia).
    assert (String.length (Py.digits 16 cp) <= 6)%nat
      by (apply Hle; [change (16 ^ Z.of_nat 6) with 16777216|]; lia).
    destruct (Nat.leb_spec (String.length (Py.digits 16 cp)) 4); lia.
Qed.

(** C9.  The hexadecimal form of a code point is made of upper-case
    hexadecimal digits, reads back as the code point, and has 4 digits when
    the code point fits in 16 bits and 6 digits otherwise; 0x41 gives
    "0041" and 0x10000 gives "010000". *)
Theorem code_point_hex_padded :
  (forall cp : Z, 0 <= cp <= 0x10FFFF ->
     String.length (code_point_hex cp) = (if cp <? 2 ^ 16 then 4%nat else 6%nat)
     /\ Forall (fun c => Re.is_upper_hex c = true) (chars (code_point_hex cp))
     /\ Py.int (code_point_hex cp) 16 = Ok cp)
  /\ code_point_hex 0x41 = "0041"
  /\ code_point_hex 0x10000 = "010000".
Proof.
  split; [|split; reflexivity].
  intros cp Hcp. split; [now apply code_point_hex_length|].
  rewrite code_point_hex_eq by lia.
  assert (Hb : 2 <= 16 <= 16) by lia.
  pose proof (digits_length_pos 16 cp) as Hpos.
  split.
  - apply pad_hex_chars. now apply upper_digits_chars.
  - rewrite pad_hex_value by (rewrite length_upper; exact Hpos).
    rewrite int_nonempty by (rewrite length_upper; exact Hpos).
    rewrite int_acc_upper. apply digits_value; lia.
Qed.

Lemma code_point_hex_padded_witness :
  0 <= 0x1F600 <= 0x10FFFF
  /\ String.length (code_point_hex 0x1F600) = 6%nat
  /\ Py.int (code_point_hex 0x1F600) 16 = Ok 0x1F600.
Proof.
  assert (H : 0 <= 0x1F600 <= 0x10FFFF) by lia.
  destruct (proj1 code_point_hex_padded 0x1F600 H) as (Hl & _ & Hv).
  split; [exact H | split; [exact Hl | exact Hv]].
Defined.

(** ** Slices *)

Lemma substring_nil (n m : nat) : substring n m "" = "".
Proof. destruct n, m; reflexivity. Qed.

Lemma substring_drop (n m k : nat) (s : string) :
  substring (n + m) k s = substring m k (Py.drop n s).
Proof.
  revert s. induction n as [|n IH]; intros s; simpl.
  - reflexivity.
  - destruct s as [|c s]; [now rewrite !substring_nil | apply IH].
Qed.

Lemma substring_take_drop (n : nat) (s : string) :
  substring 0 n s ++ Py.drop n s = s.
Proof.
  revert s. induction n as [|n IH]; intros s; simpl.
  - destruct s; reflexivity.
  - destruct s as [|c s]; simpl; [reflexivity | now rewrite IH].
Qed.

Lemma length_substring0 (n : nat) (s : string) :
  (n <= String.length s)%nat -> String.length (substring 0 n s) = n.
Proof.
  revert s. induction n as [|n IH]; intros s H; simpl.
  - destruct s; reflexivity.
  - destruct s as [|c s]; simpl in *; [lia | rewrite IH; lia].
Qed.

Lemma length_drop (n : nat) (s : string) :
  String.length (Py.drop n s) = (String.length s - n)%nat.
Proof.
  revert s. induction n as [|n IH]; intros s; simpl.
  - lia.
  - destruct s as [|c s]; simpl; [reflexivity | apply IH].
Qed.

Lemma concat_cons (x : string) (l : list string) :
  String.concat "" (x :: l) = x ++ String.concat "" l.
Proof. destruct l; simpl; [now rewrite append_nil_r | reflexivity]. Qed.

(** ** Cutting a bit string into bytes *)

Lemma binary_to_bytes_eq (binary : string) :
  binary_to_bytes binary
  = map (fun i => substring (8 * i) 8 binary)
        (seq 0 (Z.to_nat ((Py.len binary + 7) / 8))).
Proof.
  unfold binary_to_bytes, Py.range8. rewrite map_map. apply map_ext.
  intros i. unfold Py.slice. f_equal; lia.
Qed.

Lemma slices_whole (k : nat) (s : string) :
  String.length s = (8 * k)%nat ->
  let l := map (fun i => substring (8 * i) 8 s) (seq 0 k) in
  Forall (fun byte => String.length byte = 8%nat) l /\ String.concat "" l = s.
Proof.
  revert s. induction k as [|k IH]; intros s H.
  - destruct s; [|discriminate]. split; [constructor | reflexivity].
  - cbn zeta. rewrite <- cons_seq, <- seq_shift. cbn [map]. rewrite map_map.
    assert (E : map (fun i => substring (8 * S i) 8 s) (seq 0 k)
                = map (fun i => substring (8 * i) 8 (Py.drop 8 s)) (seq 0 k)).
    { apply map_ext. intros i.
      replace (8 * S i)%nat with (8 + 8 * i)%nat by lia.
      apply substring_drop. }
    rewrite E.
    destruct (IH (Py.drop 8 s)) as [Hall Hcat];
      [rewrite length_drop; lia|].
    split.
    + constructor; [apply length_substring0; lia | exact Hall].
    + rewrite concat_cons, Hcat. apply substring_take_drop.
Qed.

Lemma binary_to_bytes_whole (k : nat) (binary : string) :
  String.length binary = (8 * k)%nat ->
  List.length (binary_to_bytes binary) = k
  /\ Forall (fun byte => String.length byte = 8%nat) (binary_to_bytes binary)
  /\ String.concat "" (binary_to_bytes binary) = binary.
Proof.
  intros H. rewrite binary_to_bytes_eq.
  assert (E : Z.to_nat ((Py.len binary + 7) / 8) = k).
  { unfold Py.len. rewrite H.
    replace (Z.of_nat (8 * k) + 7) with (7 + Z.of_nat k * 8) by lia.
    rewrite Z.div_add by lia. change (7 / 8) with 0. lia. }
  rewrite E. split.
  - now rewrite length_map, length_seq.
  - now apply slices_whole.
Qed.

(** ** Padding a bit string *)

Lemma pad_binary_length (binary : string) :
  (1 <= String.length binary)%nat ->
  String.length (pad_binary binary)
  = (8 * Z.to_nat ((Py.len binary - 1) / 8 + 1))%nat.
Proof.
  intros H. unfold pad_binary, Py.len.
  rewrite length_append, length_times.
  set (L := String.length binary) in *.
  pose proof (Z.div_mod (Z.of_nat L - 1) 8).
  pose proof (Z.mod_pos_bound (Z.of_nat L - 1) 8). lia.
Qed.

Lemma pad_binary_value (binary : string) :
  (1 <= String.length binary)%nat ->
  Py.int (pad_binary binary) 2 = Py.int binary 2.
Proof.
  intros H. rewrite !int_nonempty.
  - unfold pad_binary. now apply int_acc_zeros.
  - exact H.
  - rewrite pad_binary_length by exact H.
    pose proof (Z.div_pos (Py.len binary - 1) 8). unfold Py.len in *. lia.
Qed.

(** ** A hexadecimal token of the bytes decode path *)

Lemma clean_up_hex_chars (s : string) :
  Forall (fun c => Re.is_upper_hex c = true) (chars (clean_up_hex s)).
Proof.
  unfold clean_up_hex, chars.
  induction (Py.upper s) as [|c u IH]; simpl.
  - constructor.
  - destruct (Re.is_upper_hex c) eqn:E; [constructor; assumption | exact IH].
Qed.

Lemma int_acc_hex_total (s : string) (acc : Z) :
  Forall (fun c => Re.is_upper_hex c = true) (chars s) ->
  exists v, Py.int_acc 16 s acc = Ok v.
Proof.
  revert acc. induction s as [|c s IH]; intros acc H; simpl.
  - now exists acc.
  - inversion H as [|? ? Hc Hs]; subst.
    destruct (is_upper_hex_value c Hc) as (d & -> & Hd).
    destruct (Z.ltb_spec d 16); [|lia]. now apply IH.
Qed.

Lemma digits2_bounds (v : Z) :
  0 < v ->
  2 ^ (Py.len (Py.digits 2 v) - 1) <= v < 2 ^ Py.len (Py.digits 2 v).
Proof.
  intros Hv. unfold Py.len.
  assert (Hb : 2 <= 2 <= 16) by lia.
  pose proof (digits_length_pos 2 v) as Hpos.
  set (L := String.length (Py.digits 2 v)) in *.
  split.
  - destruct (Z.le_gt_cases (2 ^ (Z.of_nat L - 1)) v) as [|Hlt]; [assumption|].
    destruct (Nat.eq_dec L 1) as [E|E].
    + rewrite E in Hlt. simpl in Hlt. lia.
    + pose proof (digits_length_le 2 Hb v (L - 1)) as Hle.
      replace (Z.of_nat (L - 1)) with (Z.of_nat L - 1) in Hle by lia.
      fold L in Hle. lia.
  - destruct (Z.le_gt_cases (2 ^ Z.of_nat L) v) as [Hge|]; [|lia].
    pose proof (digits_length_gt 2 Hb v L Hge). fold L in H. lia.
Qed.

(** C10.  A token of the bytes decode path with at least one hexadecimal
    digit is read as one hexadecimal integer and becomes the least whole
    number of 8-bit bytes that hold its value: one byte for zero, and
    otherwise as many bytes as the value has base-256 digits.  The token
    "0041" gives the single byte 01000001, the token "0000" a single zero
    byte. *)
Theorem hex_token_minimal_bytes :
  (forall input_str : string,
     clean_up_hex input_str <> "" ->
     exists (v : Z) (bin_input : string),
       Py.int (clean_up_hex input_str) 16 = Ok v
       /\ bin_input_of_hex "" [input_str] = Ok bin_input
       /\ let input_bytes := binary_to_bytes bin_input in
          let count := Z.of_nat (List.length input_bytes) in
          Forall (fun byte => String.length byte = 8%nat) input_bytes
          /\ Py.int (String.concat "" input_bytes) 2 = Ok v
          /\ (v = 0 -> count = 1)
          /\ (0 < v -> 256 ^ (count - 1) <= v < 256 ^ count))
  /\ (bin_input_of_hex "" ["0041"] = Ok "01000001"
      /\ binary_to_bytes "01000001" = ["01000001"])
  /\ (bin_input_of_hex "" ["0000"] = Ok "00000000"
      /\ binary_to_bytes "00000000" = ["00000000"]).
Proof.
  split; [|repeat split; reflexivity].
  intros input_str Hne.
  set (hex_input := clean_up_hex input_str) in *.
  destruct (int_acc_hex_total hex_input 0 (clean_up_hex_chars input_str))
    as [v Hv].
  assert (Hint : Py.int hex_input 16 = Ok v)
    by (destruct hex_input; [congruence | exact Hv]).
  assert (Hv0 : 0 <= v) by (eapply int_acc_nonneg; [| |exact Hv]; lia).
  assert (Hb : 2 <= 2 <= 16) by lia.
  pose proof (digits_length_pos 2 v) as Hpos.
  set (K := Z.to_nat ((Py.len (Py.digits 2 v) - 1) / 8 + 1)).
  assert (Hlen : String.length (pad_binary (Py.digits 2 v)) = (8 * K)%nat)
    by (apply pad_binary_length; exact Hpos).
  destruct (binary_to_bytes_whole K _ Hlen) as (Hcount & Hall & Hcat).
  exists v, (pad_binary (Py.digits 2 v)). split; [exact Hint|]. split.
  - cbn [bin_input_of_hex]. fold hex_input. unfold hex_to_binary.
    rewrite Hint. cbn [bind]. now rewrite drop_bin.
  - cbn zeta. rewrite Hcount, Hcat. split; [exact Hall|]. split.
    + rewrite pad_binary_value by exact Hpos.
      rewrite int_nonempty by exact Hpos. now apply digits_value.
    + assert (Hq : 0 <= (Py.len (Py.digits 2 v) - 1) / 8)
        by (apply Z.div_pos; unfold Py.len; lia).
      unfold K. rewrite Z2Nat.id by lia. split.
      * intros ->. reflexivity.
      * intros Hpv. pose proof (digits2_bounds v Hpv) as [Hlo Hhi].
        set (L := Py.len (Py.digits 2 v)) in *.
        pose proof (Z.div_mod (L - 1) 8).
        pose proof (Z.mod_pos_bound (L - 1) 8).
        assert (HL : 1 <= L) by (unfold L, Py.len; lia).
        change 256 with (2 ^ 8). rewrite <- !Z.pow_mul_r by lia. split.
        -- apply Z.le_trans with (2 ^ (L - 1)); [|exact Hlo].
           apply Z.pow_le_mono_r; lia.
        -- apply Z.lt_le_trans with (2 ^ L); [exact Hhi|].
           apply Z.pow_le_mono_r; lia.
Qed.

Lemma hex_token_minimal_bytes_witness :
  clean_up_hex "0x20AC" <> ""
  /\ exists (v : Z) (bin_input : string),
       Py.int (clean_up_hex "0x20AC") 16 = Ok v
       /\ bin_input_of_hex "" ["0x20AC"] = Ok bin_input
       /\ Z.of_nat (List.length (binary_to_bytes bin_input)) = 2.
Proof.
  assert (Hne : clean_up_hex "0x20AC" <> "") by (vm_compute; discriminate).
  split; [exact Hne|].
  destruct (proj1 hex_token_minimal_bytes "0x20AC" Hne)
    as (v & bin_input & Hint & Hbin & _).
  exists v, bin_input. split; [exact Hint|]. split; [exact Hbin|].
  vm_compute in Hbin. injection Hbin as <-. reflexivity.
Defined.

(** ** The chunker, one byte at a time *)

(** [chunk_step] decides by the class of the byte alone. *)
Lemma chunk_step_ascii (st : chunker) (byte : string) :
  classify_byte byte = Ok Ascii ->
  chunk_step st byte
  = if bytes_togo st >? 0 then ([], Raise TypeError)
    else ([Yield (char_bytes st ++ [byte])%list], Ok (Chunker (bytes_togo st) [])).
Proof.
  unfold classify_byte, chunk_step.
  destruct (Py.startswith byte "0"); [reflexivity|].
  destruct (Py.startswith byte "11").
  - destruct (Re.search_leader byte); discriminate.
  - destruct (Py.startswith byte "10"); discriminate.
Qed.

Lemma chunk_step_leader (st : chunker) (byte : string) (n : Z) :
  classify_byte byte = Ok (Leader n) ->
  chunk_step st byte
  = if bytes_togo st >? 0
    then ([Warn too_few_continuation_bytes
             (Py.join " " (char_bytes st ++ [byte])%list)],
          Ok (Chunker (n - 1) []))
    else ([], Ok (Chunker (n - 1) (char_bytes st ++ [byte])%list)).
Proof.
  unfold classify_byte, chunk_step.
  destruct (Py.startswith byte "0"); [discriminate|].
  destruct (Py.startswith byte "11").
  - destruct (Re.search_leader byte); [|discriminate].
    intros H. injection H as <-. destruct (bytes_togo st >? 0); reflexivity.
  - destruct (Py.startswith byte "10"); discriminate.
Qed.

Lemma chunk_step_continuation (st : chunker) (byte : string) :
  classify_byte byte = Ok Continuation ->
  chunk_step st byte
  = let char_bytes := (char_bytes st ++ [byte])%list in
    if bytes_togo st =? 0
    then ([Warn misplaced_continuation_byte byte], Ok (Chunker (bytes_togo st) []))
    else if bytes_togo st - 1 =? 0
    then (((if Z.of_nat (List.length char_bytes) >? 4
            then [Warn too_many_bytes (Py.join " " char_bytes)] else [])
             ++ [Yield char_bytes])%list,
          Ok (Chunker (bytes_togo st - 1) []))
    else ([], Ok (Chunker (bytes_togo st - 1) char_bytes)).
Proof.
  unfold classify_byte, chunk_step.
  destruct (Py.startswith byte "0"); [discriminate|].
  destruct (Py.startswith byte "11").
  - destruct (Re.search_leader byte); discriminate.
  - destruct (Py.startswith byte "10"); [reflexivity | discriminate].
Qed.

Lemma chunk_step_assertion (st : chunker) (byte : string) :
  classify_byte byte = Raise AssertionError ->
  snd (chunk_step st byte) = Raise AssertionError.
Proof.
  unfold classify_byte, chunk_step.
  destruct (Py.startswith byte "0"); [discriminate|].
  destruct (Py.startswith byte "11").
  - destruct (Re.search_leader byte); [discriminate | reflexivity].
  - destruct (Py.startswith byte "10"); discriminate.
Qed.

(** ** The classes of the 8-bit values *)

Lemma class_of_bits_reflect (b : Z) (c : byte_class) :
  class_of_bits_b b c = true -> class_of_bits b c.
Proof.
  destruct c as [|n| |]; simpl.
  - now rewrite negb_true_iff.
  - rewrite !andb_true_iff, !Z.leb_le, negb_true_iff.
    intros [[[H2 H7] Hall] Hz]. repeat split; try assumption.
    intros i Hi.
    apply (forallb_below (fun i => Z.testbit b (7 - i)) _ Hall). lia.
  - rewrite andb_true_iff, negb_true_iff. tauto.
  - discriminate.
Qed.

(** C4, as the script has it.  Every 8-bit value other than 0xFF gets
    exactly one class, and never the fourth: it is Ascii when its top bit
    is 0, a Continuation when its top two bits are 10, and otherwise a
    Leader(n) where n, from 2 to 7, counts the leading 1 bits before the
    first 0. *)
Theorem classify_byte_below_255 (b : Z) :
  0 <= b < 255 ->
  exists c, classify_byte (byte_bits b) = Ok c /\ class_of_bits b c.
Proof.
  intros Hb.
  assert (H : classified_b b = true).
  { revert b Hb. apply (forallb_below classified_b 255).
    vm_compute. reflexivity. }
  unfold classified_b in H.
  destruct (classify_byte (byte_bits b)) as [c|]; [|discriminate].
  exists c. split; [reflexivity | now apply class_of_bits_reflect].
Qed.

Lemma classify_byte_below_255_witness :
  0 <= 0xF0 < 255
  /\ exists c, classify_byte (byte_bits 0xF0) = Ok c /\ class_of_bits 0xF0 c.
Proof.
  assert (H : 0 <= 0xF0 < 255) by lia.
  split; [exact H | exact (classify_byte_below_255 0xF0 H)].
Defined.

(** C4, counterexample.  11111110 is not set apart as invalid: it is a
    leader announcing 7 bytes; and on 11111111 the assertion of the script
    fails. *)
Lemma classify_byte_no_invalid_class :
  classify_byte (byte_bits 0xFE) = Ok (Leader 7)
  /\ classify_byte (byte_bits 0xFF) = Raise AssertionError.
Proof. split; reflexivity. Qed.

(** ** Malformed input *)

(** C7.  A lone continuation byte is reported as misplaced and dropped:
    nothing is yielded, nothing is left pending, no code point comes out. *)
Theorem orphan_continuation_byte :
  byte_bits 0x80 = "10000000"
  /\ chunk_byte_sequence [byte_bits 0x80]
     = ([Warn misplaced_continuation_byte "10000000"], Ok tt)
  /\ chunk_step (Chunker 0 []) (byte_bits 0x80)
     = ([Warn misplaced_continuation_byte "10000000"], Ok (Chunker 0 []))
  /\ input_to_code_points_bytes_hex ["80"]
     = ([Logged misplaced_continuation_byte "10000000"], Ok tt).
Proof. repeat split; reflexivity. Qed.

Lemma chunk_step_ascii_pending (st : chunker) (byte : string) :
  classify_byte byte = Ok Ascii -> 0 < bytes_togo st ->
  chunk_step st byte = ([], Raise TypeError).
Proof.
  intros Hc Ht. rewrite chunk_step_ascii by exact Hc.
  destruct (Z.gtb_spec (bytes_togo st) 0); [reflexivity | lia].
Qed.

Lemma chunk_step_leader_pending (st : chunker) (byte : string) (n : Z) :
  classify_byte byte = Ok (Leader n) -> 0 < bytes_togo st ->
  chunk_step st byte
  = ([Warn too_few_continuation_bytes
        (Py.join " " (char_bytes st ++ [byte])%list)],
     Ok (Chunker (n - 1) [])).
Proof.
  intros Hc Ht. rewrite (chunk_step_leader _ _ n) by exact Hc.
  destruct (Z.gtb_spec (bytes_togo st) 0); [reflexivity | lia].
Qed.

(** C1, what the script does.  An ASCII byte that arrives while
    continuation bytes are awaited makes the generator raise [TypeError]
    (see [chunk_step_ascii_pending]): on 0xE2 0x41 nothing is logged,
    nothing is yielded, and the decoding ends there. *)
Theorem ascii_while_pending_raises :
  map byte_bits [0xE2; 0x41] = ["11100010"; "01000001"]
  /\ chunk_step (Chunker 0 []) "11100010" = ([], Ok (Chunker 2 ["11100010"]))
  /\ chunk_step (Chunker 2 ["11100010"]) "01000001" = ([], Raise TypeError)
  /\ chunk_byte_sequence (map byte_bits [0xE2; 0x41]) = ([], Raise TypeError)
  /\ input_to_code_points_bytes_hex ["E2"; "41"] = ([], Raise TypeError).
Proof. repeat split; reflexivity. Qed.

(** C3, what the script does.  A leader that arrives while continuation
    bytes are awaited is reported together with the stale bytes and
    dropped with them (see [chunk_step_leader_pending]): the new pending
    buffer is empty, and the chunk yielded next starts with a continuation
    byte, on which [char_bytes_to_code_point] raises [ValueError]. *)
Theorem leader_while_pending_is_dropped :
  map byte_bits [0xE2; 0xC3; 0xA9] = ["11100010"; "11000011"; "10101001"]
  /\ chunk_step (Chunker 2 ["11100010"]) "11000011"
     = ([Warn too_few_continuation_bytes "11100010 11000011"],
        Ok (Chunker 1 []))
  /\ chunk_byte_sequence (map byte_bits [0xE2; 0xC3; 0xA9])
     = ([Warn too_few_continuation_bytes "11100010 11000011";
         Yield ["10101001"]], Ok tt)
  /\ char_bytes_to_code_point ["10101001"] = Raise ValueError
  /\ input_to_code_points_bytes_hex ["E2"; "C3"; "A9"]
     = ([Logged too_few_continuation_bytes "11100010 11000011"],
        Raise ValueError).
Proof. repeat split; reflexivity. Qed.

(** ** The bytes of a well-formed sequence *)

Lemma is_ok_eq (r : result Z) (v : Z) : is_ok r v = true -> r = Ok v.
Proof.
  destruct r as [x|]; simpl; [|discriminate].
  intros H. apply Z.eqb_eq in H. now subst.
Qed.

Lemma has_class_eq (r : result byte_class) (c : byte_class) :
  has_class r c = true -> r = Ok c.
Proof.
  destruct r as [[|n| |]|], c as [|m| |]; simpl; try discriminate;
    try reflexivity.
  intros H. apply Z.eqb_eq in H. now subst.
Qed.

Lemma ascii_byte (b : Z) :
  0 <= b < 128 ->
  classify_byte (byte_bits b) = Ok Ascii
  /\ Py.startswith (byte_bits b) "0" = true
  /\ Py.int (byte_bits b) 2 = Ok b.
Proof.
  intros H.
  assert (E : ascii_byte_b b = true).
  { revert b H. apply (forallb_below ascii_byte_b 128). vm_compute. reflexivity. }
  unfold ascii_byte_b in E. rewrite !andb_true_iff in E.
  destruct E as [[E1 E2] E3].
  auto using has_class_eq, is_ok_eq.
Qed.

Lemma continuation_byte (v : Z) :
  0 <= v < 64 ->
  classify_byte (continuation v) = Ok Continuation
  /\ Py.startswith (continuation v) "10" = true
  /\ String.length (Py.drop 2 (continuation v)) = 6%nat
  /\ Py.int_acc 2 (Py.drop 2 (continuation v)) 0 = Ok v.
Proof.
  intros H.
  assert (E : continuation_b v = true).
  { revert v H. apply (forallb_below continuation_b 64). vm_compute. reflexivity. }
  unfold continuation_b in E. rewrite !andb_true_iff in E.
  destruct E as [[[E1 E2] E3] E4]. apply Nat.eqb_eq in E3.
  auto using has_class_eq, is_ok_eq.
Qed.

Lemma leader_byte_of_b (p n : Z) (bound : nat) :
  forallb (leader_b p n) (below bound) = true ->
  leader_byte p n (Z.of_nat bound).
Proof.
  intros H a Ha. pose proof (forallb_below _ _ H a Ha) as E.
  unfold leader_b in E.
  rewrite !andb_true_iff, negb_true_iff in E.
  destruct E as [[[E1 E2] E3] E4].
  auto using has_class_eq, is_ok_eq.
Qed.

Lemma leader_byte_2 : leader_byte 0xC0 2 32.
Proof. apply (leader_byte_of_b 0xC0 2 32). vm_compute. reflexivity. Qed.

Lemma leader_byte_3 : leader_byte 0xE0 3 16.
Proof. apply (leader_byte_of_b 0xE0 3 16). vm_compute. reflexivity. Qed.

Lemma leader_byte_4 : leader_byte 0xF0 4 8.
Proof. apply (leader_byte_of_b 0xF0 4 8). vm_compute. reflexivity. Qed.

(** ** A leader and its continuation bytes *)

(** The chunker collects the awaited continuation bytes and yields them
    with what is pending, in one chunk. *)
Lemma chunk_loop_continuations (cs : list string) :
  forall (pending : list string) (togo : Z),
    Forall (fun byte => classify_byte byte = Ok Continuation) cs ->
    togo = Z.of_nat (List.length cs) -> 0 < togo ->
    (List.length pending + List.length cs <= 4)%nat ->
    chunk_loop (Chunker togo pending) cs
    = ([Yield (pending ++ cs)%list], Ok tt).
Proof.
  induction cs as [|c cs IH]; intros pending togo Hall Htogo Hpos Hlen.
  - simpl in Htogo. lia.
  - inversion Hall as [|? ? Hc Hcs]; subst.
    cbn [chunk_loop]. rewrite chunk_step_continuation by exact Hc.
    cbn [bytes_togo char_bytes List.length] in *. cbn zeta.
    destruct (Z.eqb_spec (Z.of_nat (S (List.length cs))) 0); [lia|].
    destruct (Z.eqb_spec (Z.of_nat (S (List.length cs)) - 1) 0) as [E|E].
    + destruct cs; [|cbn [List.length] in E; lia].
      destruct (Z.gtb_spec (Z.of_nat (List.length (pending ++ [c])%list)) 4)
        as [Hgt|_].
      * rewrite length_app in Hgt. cbn [List.length] in *. lia.
      * reflexivity.
    + rewrite (IH (pending ++ [c])%list).
      * now rewrite <- app_assoc.
      * exact Hcs.
      * lia.
      * lia.
      * rewrite length_app. simpl. lia.
Qed.

Lemma chunk_leader_continuations (lead : string) (n : Z) (cs : list string) :
  classify_byte lead = Ok (Leader n) ->
  Forall (fun byte => classify_byte byte = Ok Continuation) cs ->
  n - 1 = Z.of_nat (List.length cs) -> 2 <= n <= 4 ->
  chunk_byte_sequence (lead :: cs) = ([Yield (lead :: cs)], Ok tt).
Proof.
  intros Hl Hcs Hn Hr. unfold chunk_byte_sequence. cbn [chunk_loop].
  rewrite (chunk_step_leader _ _ n) by exact Hl.
  cbn [bytes_togo char_bytes]. change (0 >? 0) with false. cbn iota.
  rewrite chunk_loop_continuations; [reflexivity | exact Hcs | lia | lia|].
  simpl. lia.
Qed.

Lemma code_point_bits_continuations (vs : list Z) :
  forall (bits : string) (acc : Z),
    Forall (fun v => 0 <= v < 64) vs ->
    Py.int_acc 2 bits 0 = Ok acc ->
    exists bits',
      code_point_bits_of (Some bits) (map continuation vs) = Ok (Some bits')
      /\ Py.int_acc 2 bits' 0 = Ok (fold_left add_six vs acc)
      /\ String.length bits'
         = (String.length bits + 6 * List.length vs)%nat.
Proof.
  induction vs as [|v vs IH]; intros bits acc Hall Hbits.
  - exists bits. simpl. repeat split; [exact Hbits | lia].
  - inversion Hall as [|? ? Hv Hvs]; subst.
    destruct (continuation_byte v Hv) as (_ & Hsw & Hlen & Hval).
    cbn [map code_point_bits_of fold_left]. rewrite Hsw.
    destruct (IH (bits ++ Py.drop 2 (continuation v)) (add_six acc v) Hvs)
      as (bits' & H1 & H2 & H3).
    + rewrite int_acc_app, Hbits. cbn [bind].
      rewrite (int_acc_shift _ _ 0 acc v Hval), Hlen. unfold add_six.
      f_equal. change (2 ^ Z.of_nat 6) with 64. lia.
    + exists bits'. repeat split; [exact H1 | exact H2|].
      rewrite H3, length_append, Hlen. simpl List.length. lia.
Qed.

Lemma code_point_leader_continuations (p n bound a : Z) (vs : list Z) :
  leader_byte p n bound -> 0 <= a < bound ->
  Forall (fun v => 0 <= v < 64) vs -> vs <> [] ->
  char_bytes_to_code_point (leader p a :: map continuation vs)
  = Ok (fold_left add_six vs a).
Proof.
  intros Hlead Ha Hvs Hne.
  destruct (Hlead a Ha) as (_ & H0 & H11 & Hval).
  unfold char_bytes_to_code_point. cbn [code_point_bits_of]. rewrite H0, H11.
  destruct (code_point_bits_continuations vs _ a Hvs Hval)
    as (bits' & H1 & H2 & H3).
  rewrite H1. cbn [bind]. rewrite int_nonempty; [exact H2|].
  destruct vs; [congruence | simpl in H3; lia].
Qed.

(** A whole multi-byte sequence goes through the chunker as one chunk and
    gives back the bits packed into it. *)
Lemma multibyte_sequence (p n bound a : Z) (vs : list Z) :
  leader_byte p n bound -> 0 <= a < bound -> 2 <= n <= 4 ->
  Forall (fun v => 0 <= v < 64) vs -> n - 1 = Z.of_nat (List.length vs) ->
  let chunk := leader p a :: map continuation vs in
  chunk_byte_sequence chunk = ([Yield chunk], Ok tt)
  /\ char_bytes_to_code_point chunk = Ok (fold_left add_six vs a).
Proof.
  intros Hlead Ha Hn Hvs Hlen. split.
  - apply (chunk_leader_continuations _ n).
    + apply (Hlead a Ha).
    + apply Forall_map. eapply Forall_impl; [|exact Hvs].
      intros v Hv. apply (continuation_byte v Hv).
    + now rewrite length_map.
    + exact Hn.
  - apply (code_point_leader_continuations p n bound); try assumption.
    destruct vs; [simpl in Hlen; lia | discriminate].
Qed.

(** ** The bits the codec packs *)

Ltac split_bits :=
  rewrite ?Z.shiftr_div_pow2 by lia;
  change 0x3F with (Z.ones 6); rewrite ?Z.land_ones by lia;
  change (2 ^ 6) with 64; change (2 ^ 12) with 4096;
  change (2 ^ 18) with 262144;
  unfold add_six;
  Z.to_euclidean_division_equations; lia.

Lemma six_bits (x : Z) : 0 <= Z.land x 0x3F < 64.
Proof. split_bits. Qed.

Lemma two_byte_bits (cp : Z) :
  0x80 <= cp < 0x800 ->
  0 <= Z.shiftr cp 6 < 32
  /\ fold_left add_six [Z.land cp 0x3F] (Z.shiftr cp 6) = cp.
Proof. intros H. cbn [fold_left]. split; split_bits. Qed.

Lemma three_byte_bits (cp : Z) :
  0x800 <= cp < 0x10000 ->
  0 <= Z.shiftr cp 12 < 16
  /\ fold_left add_six [Z.land (Z.shiftr cp 6) 0x3F; Z.land cp 0x3F]
       (Z.shiftr cp 12) = cp.
Proof. intros H. cbn [fold_left]. split; split_bits. Qed.

Lemma four_byte_bits (cp : Z) :
  0x10000 <= cp <= 0x10FFFF ->
  0 <= Z.shiftr cp 18 < 8
  /\ fold_left add_six
       [Z.land (Z.shiftr cp 12) 0x3F; Z.land (Z.shiftr cp 6) 0x3F;
        Z.land cp 0x3F]
       (Z.shiftr cp 18) = cp.
Proof. intros H. cbn [fold_left]. split; split_bits. Qed.

Ltac six_bits_all := repeat (constructor; try apply six_bits).

(** ** Sequences of one, two, three and four bytes *)

Lemma one_byte_sequence (cp : Z) :
  0 <= cp < 0x80 ->
  let chunk := map byte_bits [cp] in
  chunk_byte_sequence chunk = ([Yield chunk], Ok tt)
  /\ char_bytes_to_code_point chunk = Ok cp.
Proof.
  intros H. destruct (ascii_byte cp H) as (Hc & Hs & Hv). split.
  - unfold chunk_byte_sequence. cbn [map chunk_loop].
    rewrite chunk_step_ascii by exact Hc. reflexivity.
  - unfold char_bytes_to_code_point. cbn [map code_point_bits_of].
    rewrite Hs. exact Hv.
Qed.

Lemma two_byte_sequence (cp : Z) :
  0x80 <= cp < 0x800 ->
  let chunk := map byte_bits
                 [Z.lor 0xC0 (Z.shiftr cp 6); Z.lor 0x80 (Z.land cp 0x3F)] in
  chunk_byte_sequence chunk = ([Yield chunk], Ok tt)
  /\ char_bytes_to_code_point chunk = Ok cp.
Proof.
  intros H. destruct (two_byte_bits cp H) as [Ha Hcp].
  assert (Hn : 2 <= 2 <= 4) by lia.
  assert (Hvs : Forall (fun v => 0 <= v < 64)
                  [Z.land cp 0x3F])
    by six_bits_all.
  pose proof (multibyte_sequence 0xC0 2 32 _ _ leader_byte_2 Ha Hn Hvs eq_refl)
    as Hseq.
  cbn zeta in Hseq. rewrite Hcp in Hseq. exact Hseq.
Qed.

Lemma three_byte_sequence (cp : Z) :
  0x800 <= cp < 0x10000 ->
  let chunk := map byte_bits
                 [Z.lor 0xE0 (Z.shiftr cp 12);
                  Z.lor 0x80 (Z.land (Z.shiftr cp 6) 0x3F);
                  Z.lor 0x80 (Z.land cp 0x3F)] in
  chunk_byte_sequence chunk = ([Yield chunk], Ok tt)
  /\ char_bytes_to_code_point chunk = Ok cp.
Proof.
  intros H. destruct (three_byte_bits cp H) as [Ha Hcp].
  assert (Hn : 2 <= 3 <= 4) by lia.
  assert (Hvs : Forall (fun v => 0 <= v < 64)
                  [Z.land (Z.shiftr cp 6) 0x3F; Z.land cp 0x3F])
    by six_bits_all.
  pose proof (multibyte_sequence 0xE0 3 16 _ _ leader_byte_3 Ha Hn Hvs eq_refl)
    as Hseq.
  cbn zeta in Hseq. rewrite Hcp in Hseq. exact Hseq.
Qed.

Lemma four_byte_sequence (cp : Z) :
  0x10000 <= cp <= 0x10FFFF ->
  let chunk := map byte_bits
                 [Z.lor 0xF0 (Z.shiftr cp 18);
                  Z.lor 0x80 (Z.land (Z.shiftr cp 12) 0x3F);
                  Z.lor 0x80 (Z.land (Z.shiftr cp 6) 0x3F);
                  Z.lor 0x80 (Z.land cp 0x3F)] in
  chunk_byte_sequence chunk = ([Yield chunk], Ok tt)
  /\ char_bytes_to_code_point chunk = Ok cp.
Proof.
  intros H. destruct (four_byte_bits cp H) as [Ha Hcp].
  assert (Hn : 2 <= 4 <= 4) by lia.
  assert (Hvs : Forall (fun v => 0 <= v < 64)
                  [Z.land (Z.shiftr cp 12) 0x3F; Z.land (Z.shiftr cp 6) 0x3F;
                   Z.land cp 0x3F])
    by six_bits_all.
  pose proof (multibyte_sequence 0xF0 4 8 _ _ leader_byte_4 Ha Hn Hvs eq_refl)
    as Hseq.
  cbn zeta in Hseq. rewrite Hcp in Hseq. exact Hseq.
Qed.

(** ** Encoding *)

(** The codec, case by case. *)
Lemma code_point_char_bytes_cases (cp : Z) :
  0 <= cp <= 0x10FFFF -> ~ surrogate cp ->
  (0 <= cp < 0x80 /\ code_point_char_bytes cp = Ok [cp])
  \/ (0x80 <= cp < 0x800
      /\ code_point_char_bytes cp
         = Ok [Z.lor 0xC0 (Z.shiftr cp 6); Z.lor 0x80 (Z.land cp 0x3F)])
  \/ (0x800 <= cp < 0x10000
      /\ code_point_char_bytes cp
         = Ok [Z.lor 0xE0 (Z.shiftr cp 12);
               Z.lor 0x80 (Z.land (Z.shiftr cp 6) 0x3F);
               Z.lor 0x80 (Z.land cp 0x3F)])
  \/ (0x10000 <= cp <= 0x10FFFF
      /\ code_point_char_bytes cp
         = Ok [Z.lor 0xF0 (Z.shiftr cp 18);
               Z.lor 0x80 (Z.land (Z.shiftr cp 12) 0x3F);
               Z.lor 0x80 (Z.land (Z.shiftr cp 6) 0x3F);
               Z.lor 0x80 (Z.land cp 0x3F)]).
Proof.
  intros Hr Hs. unfold surrogate in Hs. unfold code_point_char_bytes, Py.chr.
  destruct (Z.leb_spec 0 cp); [|lia].
  destruct (Z.leb_spec cp 0x10FFFF); [|lia].
  cbn [andb bind]. unfold Py.utf8.
  destruct (Z.ltb_spec cp 0x80); [left; split; [lia | reflexivity]|].
  destruct (Z.ltb_spec cp 0x800);
    [right; left; split; [lia | reflexivity]|].
  destruct (Z.ltb_spec cp 0x10000).
  - right; right; left. split; [lia|].
    destruct (Z.leb_spec 0xD800 cp); destruct (Z.leb_spec cp 0xDFFF);
      try reflexivity.
    lia.
  - right; right; right. split; [lia | reflexivity].
Qed.

Lemma code_point_char_bytes_surrogate (cp : Z) :
  surrogate cp -> code_point_char_bytes cp = Raise UnicodeEncodeError.
Proof.
  unfold surrogate. intros H. unfold code_point_char_bytes, Py.chr.
  destruct (Z.leb_spec 0 cp); [|lia].
  destruct (Z.leb_spec cp 0x10FFFF); [|lia].
  cbn [andb bind]. unfold Py.utf8.
  destruct (Z.ltb_spec cp 0x80); [lia|].
  destruct (Z.ltb_spec cp 0x800); [lia|].
  destruct (Z.ltb_spec cp 0x10000); [|lia].
  destruct (Z.leb_spec 0xD800 cp); [|lia].
  destruct (Z.leb_spec cp 0xDFFF); [reflexivity | lia].
Qed.

Lemma code_point_bytes_round_trip (cp : Z) :
  0 <= cp <= 0x10FFFF -> ~ surrogate cp ->
  exists char_bytes,
    code_point_char_bytes cp = Ok char_bytes
    /\ let input_bytes := map byte_bits char_bytes in
       chunk_byte_sequence input_bytes = ([Yield input_bytes], Ok tt)
       /\ char_bytes_to_code_point input_bytes = Ok cp.
Proof.
  intros Hr Hs.
  destruct (code_point_char_bytes_cases cp Hr Hs)
    as [[H E]|[[H E]|[[H E]|[H E]]]];
    rewrite E; eexists; (split; [reflexivity|]).
  - now apply one_byte_sequence.
  - now apply two_byte_sequence.
  - now apply three_byte_sequence.
  - now apply four_byte_sequence.
Qed.

(** C6, as the script has it.  A code point from 0 to 0x10FFFF that is not
    a surrogate is encoded in 1 byte up to 0x7F, 2 bytes up to 0x7FF,
    3 bytes up to 0xFFFF and 4 bytes above, and the output line holds as
    many strings. *)
Theorem encoded_length (cp : Z) :
  0 <= cp <= 0x10FFFF -> ~ surrogate cp ->
  exists char_bytes output_strs,
    code_point_char_bytes cp = Ok char_bytes
    /\ List.length char_bytes = utf8_length cp
    /\ code_point_output_strs_hex cp = Ok output_strs
    /\ List.length output_strs = utf8_length cp.
Proof.
  intros Hr Hs. unfold code_point_output_strs_hex, utf8_length.
  destruct (code_point_char_bytes_cases cp Hr Hs)
    as [[H E]|[[H E]|[[H E]|[H E]]]];
    rewrite E; cbn [bind]; do 2 eexists;
    (split; [reflexivity|]); cbn [map List.length];
    destruct (Z.leb_spec cp 0x7F); try lia;
    destruct (Z.leb_spec cp 0x7FF); try lia;
    destruct (Z.leb_spec cp 0xFFFF); try lia; auto.
Qed.

Lemma encoded_length_witness :
  0 <= 0x20AC <= 0x10FFFF /\ ~ surrogate 0x20AC
  /\ exists char_bytes output_strs,
       code_point_char_bytes 0x20AC = Ok char_bytes
       /\ List.length char_bytes = 3%nat
       /\ code_point_output_strs_hex 0x20AC = Ok output_strs
       /\ List.length output_strs = 3%nat.
Proof.
  assert (Hr : 0 <= 0x20AC <= 0x10FFFF) by lia.
  assert (Hs : ~ surrogate 0x20AC) by (unfold surrogate; lia).
  split; [exact Hr | split; [exact Hs|]].
  exact (encoded_length 0x20AC Hr Hs).
Defined.

(** C6, counterexample.  0xD800 lies between 0x800 and 0xFFFF and gets no
    bytes at all: the codec raises. *)
Lemma encoded_length_surrogate :
  0x800 <= 0xD800 <= 0xFFFF
  /\ code_point_char_bytes 0xD800 = Raise UnicodeEncodeError
  /\ code_point_to_output_bytes_hex 0xD800 = Raise UnicodeEncodeError.
Proof. split; [lia | split; reflexivity]. Qed.

(** C5, as the script has it.  A surrogate is refused by the encoder, which
    raises; the decode path takes the three bytes that would encode it as
    one chunk, with no warning, and assembles the surrogate from it. *)
Theorem surrogate_encode_decode (cp : Z) :
  surrogate cp ->
  code_point_char_bytes cp = Raise UnicodeEncodeError
  /\ code_point_to_output_bytes_hex cp = Raise UnicodeEncodeError
  /\ let chunk := map byte_bits
                    [Z.lor 0xE0 (Z.shiftr cp 12);
                     Z.lor 0x80 (Z.land (Z.shiftr cp 6) 0x3F);
                     Z.lor 0x80 (Z.land cp 0x3F)] in
     chunk_byte_sequence chunk = ([Yield chunk], Ok tt)
     /\ char_bytes_to_code_point chunk = Ok cp.
Proof.
  intros Hs. pose proof (code_point_char_bytes_surrogate cp Hs) as E.
  split; [exact E|]. split.
  - unfold code_point_to_output_bytes_hex, code_point_output_strs_hex.
    now rewrite E.
  - apply three_byte_sequence. unfold surrogate in Hs. lia.
Qed.

Lemma surrogate_encode_decode_witness :
  surrogate 0xDC00
  /\ code_point_char_bytes 0xDC00 = Raise UnicodeEncodeError
  /\ char_bytes_to_code_point ["11101101"; "10110000"; "10000000"] = Ok 0xDC00.
Proof.
  assert (Hs : surrogate 0xDC00) by (unfold surrogate; lia).
  destruct (surrogate_encode_decode 0xDC00 Hs) as (He & _ & _ & Hd).
  split; [exact Hs | split; [exact He | exact Hd]].
Defined.

(** C5, counterexample.  The encoder rejects the surrogate 0xDFFF. *)
Lemma surrogate_rejected_by_encoder :
  surrogate 0xDFFF
  /\ Py.chr 0xDFFF = Ok 0xDFFF
  /\ Py.utf8 0xDFFF = Raise UnicodeEncodeError
  /\ code_point_to_output_bytes_hex 0xDFFF = Raise UnicodeEncodeError.
Proof. split; [unfold surrogate; lia | repeat split; reflexivity]. Qed.

(** ** The descriptive line *)

(** C8, as the script has it.  For a code point from 0 to 0x10FFFF whose
    character has a name, the line is "U+XXXX:" followed by spaces up to 9
    columns (two spaces after four digits, none after six), then a space,
    the character, a space and the name in parentheses; when the character
    has no name, the script raises [ValueError] and makes no line. *)
Theorem format_code_point_output_line
  (unicodedata_name : Z -> option string) (cp : Z) :
  0 <= cp <= 0x10FFFF ->
  format_code_point_output unicodedata_name cp
  = match unicodedata_name cp with
    | Some name =>
        Ok (ustr ("U+" ++ code_point_hex cp ++ ":"
                  ++ (if cp <? 2 ^ 16 then "  " else "") ++ " ")
              ++ [cp] ++ ustr (" (" ++ name ++ ")"))%list
    | None => Raise ValueError
    end.
Proof.
  intros Hcp. unfold format_code_point_output. fold (code_point_hex cp).
  unfold Py.chr.
  destruct (Z.leb_spec 0 cp); [|lia].
  destruct (Z.leb_spec cp 0x10FFFF); [|lia].
  cbn [andb bind].
  destruct (unicodedata_name cp) as [name|]; [|reflexivity].
  do 3 f_equal. unfold Py.format_9s, Py.len.
  cbn [append String.length]. rewrite length_append.
  rewrite code_point_hex_length by lia. do 2 f_equal.
  rewrite !append_assoc. f_equal. cbn [append].
  destruct (cp <? 2 ^ 16); reflexivity.
Qed.

Lemma format_code_point_output_line_witness :
  0 <= 0x41 <= 0x10FFFF
  /\ format_code_point_output unicodedata_name_A 0x41
     = Ok (ustr "U+0041:   A (LATIN CAPITAL LETTER A)").
Proof.
  assert (H : 0 <= 0x41 <= 0x10FFFF) by lia.
  split; [exact H|].
  exact (format_code_point_output_line unicodedata_name_A 0x41 H).
Defined.

(** C8, counterexample.  The line of U+0041 has its fill after "U+0041:",
    not before it; and U+0000, which has no name, gets no line. *)
Lemma format_code_point_output_fill_after :
  format_code_point_output unicodedata_name_A 0x41
  = Ok (ustr "U+0041:   A (LATIN CAPITAL LETTER A)")
  /\ left_padded_9 "U+0041:" = "  U+0041:"
  /\ format_code_point_output unicodedata_name_A 0x41
     <> Ok (ustr (left_padded_9 "U+0041:" ++ " ") ++ [0x41]
              ++ ustr " (LATIN CAPITAL LETTER A)")%list
  /\ format_code_point_output unicodedata_name_A 0 = Raise ValueError.
Proof.
  split; [reflexivity|]. split; [reflexivity|].
  split; [vm_compute; discriminate | reflexivity].
Qed.

(** ** From the output of the encoder back into the decoder *)

Lemma substring_append_l (n : nat) (x r : string) :
  String.length x = n -> substring 0 n (x ++ r) = x.
Proof.
  intros <-. induction x as [|c x IH]; simpl.
  - destruct r; reflexivity.
  - now rewrite IH.
Qed.

Lemma drop_append_l (n : nat) (x r : string) :
  String.length x = n -> Py.drop n (x ++ r) = r.
Proof.
  intros <-. induction x as [|c x IH]; simpl; [reflexivity | exact IH].
Qed.

Lemma slices_concat (l : list string) :
  Forall (fun byte => String.length byte = 8%nat) l ->
  map (fun i => substring (8 * i) 8 (String.concat "" l))
      (seq 0 (List.length l)) = l.
Proof.
  induction l as [|x l IH]; intros H.
  - reflexivity.
  - inversion H as [|? ? Hx Hl]; subst.
    rewrite concat_cons. cbn [List.length].
    rewrite <- cons_seq, <- seq_shift. cbn [map]. rewrite map_map. f_equal.
    + now apply substring_append_l.
    + rewrite <- (IH Hl) at 2. apply map_ext. intros i.
      replace (8 * S i)%nat with (8 + 8 * i)%nat by lia.
      now rewrite substring_drop, drop_append_l.
Qed.

Lemma length_concat (l : list string) :
  Forall (fun byte => String.length byte = 8%nat) l ->
  String.length (String.concat "" l) = (8 * List.length l)%nat.
Proof.
  induction l as [|x l IH]; intros H.
  - reflexivity.
  - inversion H as [|? ? Hx Hl]; subst.
    rewrite concat_cons, length_append, Hx, (IH Hl). simpl List.length. lia.
Qed.

Lemma binary_to_bytes_concat (l : list string) :
  Forall (fun byte => String.length byte = 8%nat) l ->
  binary_to_bytes (String.concat "" l) = l.
Proof.
  intros H. rewrite binary_to_bytes_eq. unfold Py.len.
  rewrite (length_concat l H).
  replace (Z.to_nat ((Z.of_nat (8 * List.length l) + 7) / 8))
    with (List.length l).
  - now apply slices_concat.
  - replace (Z.of_nat (8 * List.length l) + 7)
      with (7 + Z.of_nat (List.length l) * 8) by lia.
    rewrite Z.div_add by lia. change (7 / 8) with 0. lia.
Qed.

Lemma byte_hex_bits (b : Z) :
  0 <= b < 256 ->
  hex_to_binary (clean_up_hex (byte_hex b)) = Ok (byte_bits b)
  /\ String.length (byte_bits b) = 8%nat.
Proof.
  intros H.
  assert (E : byte_hex_b b = true).
  { revert b H. apply (forallb_below byte_hex_b 256). vm_compute. reflexivity. }
  unfold byte_hex_b in E. apply andb_true_iff in E. destruct E as [E1 E2].
  apply Nat.eqb_eq in E2. split; [|exact E2].
  destruct (hex_to_binary (clean_up_hex (byte_hex b))); [|discriminate].
  apply String.eqb_eq in E1. now subst.
Qed.

Lemma bin_input_of_byte_hex (char_bytes : list Z) :
  forall bin_input,
    Forall (fun b => 0 <= b < 256) char_bytes ->
    bin_input_of_hex bin_input (map byte_hex char_bytes)
    = Ok (bin_input ++ String.concat "" (map byte_bits char_bytes)).
Proof.
  induction char_bytes as [|b bs IH]; intros bin_input H.
  - simpl. now rewrite append_nil_r.
  - inversion H as [|? ? Hb Hbs]; subst.
    cbn [map bin_input_of_hex]. rewrite (proj1 (byte_hex_bits b Hb)).
    cbn [bind]. rewrite (IH _ Hbs), concat_cons. now rewrite append_assoc.
Qed.

(** The strings the encoder prints for a code point, given back as input of
    type 'bytes', are decoded like the bytes themselves. *)
Lemma input_of_byte_hex (char_bytes : list Z) :
  Forall (fun b => 0 <= b < 256) char_bytes ->
  input_to_code_points_bytes_hex (map byte_hex char_bytes)
  = let (evs, ending) := chunk_byte_sequence (map byte_bits char_bytes) in
    code_points_of_trace evs ending.
Proof.
  intros H. unfold input_to_code_points_bytes_hex.
  rewrite bin_input_of_byte_hex by exact H. cbn [append].
  rewrite binary_to_bytes_concat; [reflexivity|].
  apply Forall_map. eapply Forall_impl; [|exact H].
  intros b Hb. apply (byte_hex_bits b Hb).
Qed.

Lemma lor_byte (p : Z) (bound : nat) :
  forallb (fun a => (0 <=? Z.lor p a) && (Z.lor p a <? 256)) (below bound)
  = true ->
  forall a, 0 <= a < Z.of_nat bound -> 0 <= Z.lor p a < 256.
Proof.
  intros H a Ha. pose proof (forallb_below _ _ H a Ha) as E. cbn beta in E.
  apply andb_true_iff in E. destruct E as [E1 E2].
  apply Z.leb_le in E1. apply Z.ltb_lt in E2. lia.
Qed.

Lemma code_point_char_bytes_range (cp : Z) (char_bytes : list Z) :
  0 <= cp <= 0x10FFFF -> ~ surrogate cp ->
  code_point_char_bytes cp = Ok char_bytes ->
  Forall (fun b => 0 <= b < 256) char_bytes.
Proof.
  intros Hr Hs E.
  assert (Hc : forall v, 0 <= Z.lor 0x80 (Z.land v 0x3F) < 256).
  { intros v. apply (lor_byte 0x80 64); [vm_compute; reflexivity|].
    apply six_bits. }
  destruct (code_point_char_bytes_cases cp Hr Hs)
    as [[H E']|[[H E']|[[H E']|[H E']]]];
    rewrite E' in E; injection E as <-; repeat constructor;
    try apply Hc; try lia.
  - apply (lor_byte 0xC0 32); [vm_compute; reflexivity|].
    apply (two_byte_bits cp H).
  - apply (lor_byte 0xC0 32); [vm_compute; reflexivity|].
    apply (two_byte_bits cp H).
  - apply (lor_byte 0xE0 16); [vm_compute; reflexivity|].
    apply (three_byte_bits cp H).
  - apply (lor_byte 0xE0 16); [vm_compute; reflexivity|].
    apply (three_byte_bits cp H).
  - apply (lor_byte 0xF0 8); [vm_compute; reflexivity|].
    apply (four_byte_bits cp H).
  - apply (lor_byte 0xF0 8); [vm_compute; reflexivity|].
    apply (four_byte_bits cp H).
Qed.

(** C2.  A code point from 0 to 0x10FFFF that is not a surrogate is
    encoded, its bytes go through the chunker as one chunk with no warning,
    and the chunk is assembled to the code point again; so the strings
    printed by the encoder in format 'hex', given as input of type 'bytes',
    yield that code point and nothing else. *)
Theorem encode_chunk_assemble (cp : Z) :
  0 <= cp <= 0x10FFFF -> ~ surrogate cp ->
  exists char_bytes,
    code_point_char_bytes cp = Ok char_bytes
    /\ (let input_bytes := map byte_bits char_bytes in
        chunk_byte_sequence input_bytes = ([Yield input_bytes], Ok tt)
        /\ char_bytes_to_code_point input_bytes = Ok cp)
    /\ code_point_output_strs_hex cp = Ok (map byte_hex char_bytes)
    /\ input_to_code_points_bytes_hex (map byte_hex char_bytes)
       = ([CodePoint cp], Ok tt).
Proof.
  intros Hr Hs.
  destruct (code_point_bytes_round_trip cp Hr Hs) as (char_bytes & E & Hc & Ha).
  exists char_bytes. split; [exact E|]. split; [split; assumption|]. split.
  - unfold code_point_output_strs_hex. now rewrite E.
  - rewrite input_of_byte_hex
      by (apply (code_point_char_bytes_range cp); assumption).
    rewrite Hc. cbn [code_points_of_trace]. now rewrite Ha.
Qed.

Lemma encode_chunk_assemble_witness :
  0 <= 0x20AC <= 0x10FFFF /\ ~ surrogate 0x20AC
  /\ exists char_bytes,
       code_point_char_bytes 0x20AC = Ok char_bytes
       /\ chunk_byte_sequence (map byte_bits char_bytes)
          = ([Yield (map byte_bits char_bytes)], Ok tt)
       /\ char_bytes_to_code_point (map byte_bits char_bytes) = Ok 0x20AC.
Proof.
  assert (Hr : 0 <= 0x20AC <= 0x10FFFF) by lia.
  assert (Hs : ~ surrogate 0x20AC) by (unfold surrogate; lia).
  split; [exact Hr | split; [exact Hs|]].
  destruct (encode_chunk_assemble 0x20AC Hr Hs)
    as (char_bytes & E & [Hc Ha] & _).
  exists char_bytes. split; [exact E | split; [exact Hc | exact Ha]].
Defined.

(** * The rest of the script *)

(** ** The chunker on whole and on cut sequences *)

Lemma chunk_step_unmatched (st : chunker) (byte : string) :
  classify_byte byte = Ok Unmatched ->
  chunk_step st byte
  = ([], Ok (Chunker (bytes_togo st) (char_bytes st ++ [byte])%list)).
Proof.
  unfold classify_byte, chunk_step.
  destruct (Py.startswith byte "0"); [discriminate|].
  destruct (Py.startswith byte "11").
  - destruct (Re.search_leader byte); discriminate.
  - destruct (Py.startswith byte "10"); [discriminate | reflexivity].
Qed.

(** The awaited continuation bytes complete the chunk, and the chunker
    starts afresh on what follows. *)
Lemma chunk_loop_continuations_then (cs : list string) :
  forall (pending : list string) (togo : Z) (rest : list string),
    Forall (fun byte => classify_byte byte = Ok Continuation) cs ->
    togo = Z.of_nat (List.length cs) -> 0 < togo ->
    chunk_loop (Chunker togo pending) (cs ++ rest)
    = let (evs, ending) := chunk_loop (Chunker 0 []) rest in
      ((too_long (pending ++ cs) ++ [Yield (pending ++ cs)]) ++ evs,
       ending)%list.
Proof.
  induction cs as [|c cs IH]; intros pending togo rest Hall Htogo Hpos.
  - simpl in Htogo. lia.
  - inversion Hall as [|? ? Hc Hcs]; subst.
    cbn [app chunk_loop]. rewrite chunk_step_continuation by exact Hc.
    cbn [bytes_togo char_bytes List.length] in *. cbn zeta.
    destruct (Z.eqb_spec (Z.of_nat (S (List.length cs))) 0); [lia|].
    destruct (Z.eqb_spec (Z.of_nat (S (List.length cs)) - 1) 0) as [E|E].
    + destruct cs; [|cbn [List.length] in E; lia].
      cbn [app List.length]. change (Z.of_nat 1 - 1) with 0.
      destruct (chunk_loop (Chunker 0 []) rest) as [evs ending].
      reflexivity.
    + rewrite (IH (pending ++ [c])%list); [|exact Hcs|lia|lia].
      rewrite <- app_assoc.
      destruct (chunk_loop (Chunker 0 []) rest) as [evs ending].
      reflexivity.
Qed.

(** Too few continuation bytes before the end of the input: one warning
    for what is pending. *)
Lemma chunk_loop_cut_short (cs : list string) :
  forall (pending : list string) (togo : Z),
    Forall (fun byte => classify_byte byte = Ok Continuation) cs ->
    Z.of_nat (List.length cs) < togo ->
    chunk_loop (Chunker togo pending) cs
    = (if Z.of_nat (List.length (pending ++ cs)) >? 0
       then [Warn too_few_continuation_bytes (Py.join " " (pending ++ cs))]
       else [], Ok tt).
Proof.
  induction cs as [|c cs IH]; intros pending togo Hall Htogo.
  - cbn [chunk_loop char_bytes]. now rewrite app_nil_r.
  - inversion Hall as [|? ? Hc Hcs]; subst.
    cbn [chunk_loop]. rewrite chunk_step_continuation by exact Hc.
    cbn [bytes_togo char_bytes List.length] in *. cbn zeta.
    destruct (Z.eqb_spec togo 0); [lia|].
    destruct (Z.eqb_spec (togo - 1) 0); [lia|].
    rewrite (IH (pending ++ [c])%list); [|exact Hcs|lia].
    rewrite <- app_assoc. reflexivity.
Qed.

Lemma leader_continuations_then (lead : string) (n : Z) (cs rest : list string) :
  classify_byte lead = Ok (Leader n) ->
  Forall (fun byte => classify_byte byte = Ok Continuation) cs ->
  n - 1 = Z.of_nat (List.length cs) -> 2 <= n ->
  chunk_loop (Chunker 0 []) (lead :: cs ++ rest)
  = let (evs, ending) := chunk_loop (Chunker 0 []) rest in
    ((too_long (lead :: cs) ++ [Yield (lead :: cs)]) ++ evs, ending)%list.
Proof.
  intros Hl Hcs Hn Hr. cbn [chunk_loop].
  rewrite (chunk_step_leader _ _ n) by exact Hl.
  cbn [bytes_togo char_bytes]. change (0 >? 0) with false. cbn iota.
  rewrite chunk_loop_continuations_then; [|exact Hcs|lia|lia].
  destruct (chunk_loop (Chunker 0 []) rest) as [evs ending]. reflexivity.
Qed.

Lemma chunk_leader_all (lead : string) (n : Z) (cs : list string) :
  classify_byte lead = Ok (Leader n) ->
  Forall (fun byte => classify_byte byte = Ok Continuation) cs ->
  n - 1 = Z.of_nat (List.length cs) -> 2 <= n ->
  chunk_byte_sequence (lead :: cs)
  = ((if n >? 4 then [Warn too_many_bytes (Py.join " " (lead :: cs))] else [])
       ++ [Yield (lead :: cs)], Ok tt)%list.
Proof.
  intros Hl Hcs Hn Hr. unfold chunk_byte_sequence.
  rewrite <- (app_nil_r cs) at 1.
  rewrite (leader_continuations_then lead n cs []) by assumption.
  cbn [chunk_loop char_bytes List.length]. rewrite app_nil_r.
  unfold too_long. cbn [List.length]. rewrite Nat2Z.inj_succ, <- Hn.
  replace (Z.succ (n - 1)) with n by lia. reflexivity.
Qed.

(** X1.  A leader announcing n bytes, followed by its n - 1 continuation
    bytes, is yielded with them as one chunk; when n is more than 4 the
    chunk is yielded all the same, after a warning "more than 4 bytes". *)
Theorem leader_with_all_continuations (lead : string) (n : Z) (cs : list string) :
  classify_byte lead = Ok (Leader n) ->
  Forall (fun byte => classify_byte byte = Ok Continuation) cs ->
  n - 1 = Z.of_nat (List.length cs) -> 2 <= n ->
  chunk_byte_sequence (lead :: cs)
  = ((if n >? 4 then [Warn too_many_bytes (Py.join " " (lead :: cs))] else [])
       ++ [Yield (lead :: cs)], Ok tt)%list.
Proof. exact (chunk_leader_all lead n cs). Qed.

Lemma leader_with_all_continuations_witness :
  classify_byte "11111000" = Ok (Leader 5)
  /\ chunk_byte_sequence
       ["11111000"; "10000000"; "10000000"; "10000000"; "10000001"]
     = ([Warn too_many_bytes "11111000 10000000 10000000 10000000 10000001";
         Yield ["11111000"; "10000000"; "10000000"; "10000000"; "10000001"]],
        Ok tt).
Proof.
  assert (Hl : classify_byte "11111000" = Ok (Leader 5)) by reflexivity.
  split; [exact Hl|].
  apply (leader_with_all_continuations "11111000" 5
           ["10000000"; "10000000"; "10000000"; "10000001"] Hl).
  - repeat constructor.
  - reflexivity.
  - lia.
Defined.

(** X2.  A leader followed by fewer continuation bytes than it announces,
    at the end of the input, yields no chunk: the bytes are reported once,
    together, as "not enough continuation bytes". *)
Theorem leader_cut_short (lead : string) (n : Z) (cs : list string) :
  classify_byte lead = Ok (Leader n) ->
  Forall (fun byte => classify_byte byte = Ok Continuation) cs ->
  Z.of_nat (List.length cs) < n - 1 ->
  chunk_byte_sequence (lead :: cs)
  = ([Warn too_few_continuation_bytes (Py.join " " (lead :: cs))], Ok tt).
Proof.
  intros Hl Hcs Hn. unfold chunk_byte_sequence. cbn [chunk_loop].
  rewrite (chunk_step_leader _ _ n) by exact Hl.
  cbn [bytes_togo char_bytes]. change (0 >? 0) with false. cbn iota.
  rewrite chunk_loop_cut_short by assumption.
  cbn [app List.length].
  destruct (Z.gtb_spec (Z.of_nat (S (List.length cs))) 0); [reflexivity | lia].
Qed.

Lemma leader_cut_short_witness :
  classify_byte "11100010" = Ok (Leader 3)
  /\ chunk_byte_sequence ["11100010"; "10000010"]
     = ([Warn too_few_continuation_bytes "11100010 10000010"], Ok tt).
Proof.
  assert (Hl : classify_byte "11100010" = Ok (Leader 3)) by reflexivity.
  split; [exact Hl|].
  apply (leader_cut_short "11100010" 3 ["10000010"] Hl).
  - repeat constructor.
  - simpl. lia.
Defined.

(** X3.  A stream of continuation bytes alone yields nothing: each byte
    is reported as misplaced, by itself, and dropped. *)
Theorem continuations_only (cs : list string) :
  Forall (fun byte => classify_byte byte = Ok Continuation) cs ->
  chunk_byte_sequence cs
  = (map (Warn misplaced_continuation_byte) cs, Ok tt)
  /\ code_points_of_trace (map (Warn misplaced_continuation_byte) cs) (Ok tt)
     = (map (Logged misplaced_continuation_byte) cs, Ok tt).
Proof.
  intros H. unfold chunk_byte_sequence. split.
  - induction H as [|c cs Hc Hcs IH]; [reflexivity|].
    cbn [chunk_loop map]. rewrite chunk_step_continuation by exact Hc.
    cbn [bytes_togo]. cbn zeta. change (0 =? 0) with true. cbn iota.
    rewrite IH. reflexivity.
  - clear H. induction cs as [|c cs IH]; [reflexivity|].
    cbn [map code_points_of_trace]. now rewrite IH.
Qed.

Lemma continuations_only_witness :
  Forall (fun byte => classify_byte byte = Ok Continuation)
         ["10000000"; "10111111"]
  /\ chunk_byte_sequence ["10000000"; "10111111"]
     = ([Warn misplaced_continuation_byte "10000000";
         Warn misplaced_continuation_byte "10111111"], Ok tt).
Proof.
  assert (H : Forall (fun byte => classify_byte byte = Ok Continuation)
                     ["10000000"; "10111111"]) by (repeat constructor).
  split; [exact H | exact (proj1 (continuations_only _ H))].
Defined.

(** X4.  The chunker itself never raises on a stream without an ASCII
    byte in which every byte that starts with 11 has a 0 after its ones:
    whatever is malformed there ends in warnings. *)
Theorem chunker_total_without_ascii (input_bytes : list string) :
  Forall (fun byte => exists c, classify_byte byte = Ok c /\ c <> Ascii)
         input_bytes ->
  snd (chunk_byte_sequence input_bytes) = Ok tt.
Proof.
  unfold chunk_byte_sequence. generalize (Chunker 0 []).
  induction input_bytes as [|byte rest IH]; intros st H.
  - reflexivity.
  - inversion H as [|? ? (c & Hc & Hna) Hrest]; subst.
    cbn [chunk_loop].
    assert (Hstep : exists evs st', chunk_step st byte = (evs, Ok st')).
    { destruct c as [|n| |].
      - congruence.
      - rewrite (chunk_step_leader _ _ n) by exact Hc.
        destruct (bytes_togo st >? 0); eauto.
      - rewrite chunk_step_continuation by exact Hc. cbn zeta.
        destruct (bytes_togo st =? 0); [eauto|].
        destruct (bytes_togo st - 1 =? 0); eauto.
      - rewrite chunk_step_unmatched by exact Hc. eauto. }
    destruct Hstep as (evs & st' & ->).
    specialize (IH st' Hrest).
    destruct (chunk_loop st' rest) as [evs' ending]. exact IH.
Qed.

Lemma chunker_total_without_ascii_witness :
  Forall (fun byte => exists c, classify_byte byte = Ok c /\ c <> Ascii)
         ["11100010"; "11000011"; "10101001"; "10101001"]
  /\ snd (chunk_byte_sequence ["11100010"; "11000011"; "10101001"; "10101001"])
     = Ok tt.
Proof.
  assert (H : Forall (fun byte => exists c, classify_byte byte = Ok c /\ c <> Ascii)
                     ["11100010"; "11000011"; "10101001"; "10101001"]).
  { repeat constructor; eexists; (split; [reflexivity | discriminate]). }
  split; [exact H | exact (chunker_total_without_ascii _ H)].
Defined.

(** ** Splitting a line into pieces *)

Lemma contains_append (c : ascii) (s1 s2 : string) :
  Py.contains c (s1 ++ s2) = Py.contains c s1 || Py.contains c s2.
Proof.
  induction s1 as [|a s1 IH]; simpl; [reflexivity|].
  now rewrite IH, orb_assoc.
Qed.

Lemma space_not_comma (c : ascii) :
  Py.is_space c = true -> Ascii.eqb c ","%char = false.
Proof. destruct c as [[] [] [] [] [] [] [] []]; try discriminate; reflexivity. Qed.

Lemma blank_no_comma (s : string) :
  blank s = true -> Py.contains ","%char s = false.
Proof.
  unfold blank, chars. induction s as [|c s IH]; simpl; [reflexivity|].
  rewrite andb_true_iff. intros [Hc Hs].
  now rewrite (space_not_comma c Hc), IH.
Qed.

Lemma plain_no_comma (t : string) :
  plain t = true -> Py.contains ","%char t = false.
Proof.
  unfold plain, chars. rewrite andb_true_iff. intros [_ H].
  induction t as [|c t IH]; simpl in *; [reflexivity|].
  rewrite !andb_true_iff, !negb_true_iff in H. destruct H as [[_ Hc] Ht].
  now rewrite Hc, IH.
Qed.

Lemma join_cons (t : string) (ts : list string) :
  Py.join " " (t :: ts)
  = match ts with [] => t | _ => t ++ " " ++ Py.join " " ts end.
Proof. reflexivity. Qed.

Lemma join_no_comma (tokens : list string) :
  Forall (fun t => plain t = true) tokens ->
  Py.contains ","%char (Py.join " " tokens) = false.
Proof.
  induction tokens as [|t ts IH]; intros H; [reflexivity|].
  inversion H as [|? ? Ht Hts]; subst. rewrite join_cons.
  destruct ts as [|t' ts']; [now apply plain_no_comma|].
  rewrite !contains_append, (plain_no_comma t Ht), (IH Hts). reflexivity.
Qed.

Lemma split_from_token (t : string) :
  forall cur rest,
    forallb (fun c => negb (Py.is_space c) && negb (Ascii.eqb c ","%char))
            (chars t) = true ->
    Py.split_from (t ++ rest) cur = Py.split_from rest (cur ++ t).
Proof.
  unfold chars. induction t as [|c t IH]; intros cur rest H; simpl in *.
  - now rewrite append_nil_r.
  - rewrite !andb_true_iff, negb_true_iff in H. destruct H as [[Hc _] Ht].
    rewrite Hc, (IH _ _ Ht), append_assoc. reflexivity.
Qed.

Lemma split_from_blank (ws : string) :
  blank ws = true ->
  Py.split_from ws "" = [] /\ forall c t, Py.split_from ws (String c t) = [String c t].
Proof.
  unfold blank, chars. induction ws as [|a ws IH]; simpl.
  - intros _. split; reflexivity.
  - rewrite andb_true_iff. intros [Ha Hws]. rewrite Ha.
    destruct (IH Hws) as [IH1 _]. split; [exact IH1|].
    intros c t. now rewrite IH1.
Qed.

Lemma split_join (tokens : list string) (ws : string) :
  Forall (fun t => plain t = true) tokens -> blank ws = true ->
  Py.split (Py.join " " tokens ++ ws) = tokens.
Proof.
  intros H Hws. unfold Py.split.
  induction tokens as [|t ts IH].
  - apply (split_from_blank ws Hws).
  - inversion H as [|? ? Ht Hts]; subst. rewrite join_cons.
    unfold plain in Ht. apply andb_true_iff in Ht. destruct Ht as [Hne Hch].
    destruct ts as [|t' ts'].
    + rewrite split_from_token by exact Hch. cbn [append].
      destruct t as [|c t]; [discriminate|].
      apply (split_from_blank ws Hws).
    + rewrite !append_assoc, split_from_token by exact Hch. cbn [append].
      destruct t as [|c t]; [discriminate|].
      cbn [Py.split_from]. change (Py.is_space " "%char) with true.
      cbn iota. f_equal. apply IH. exact Hts.
Qed.

Lemma comma_or_space_split_join (tokens : list string) (ws : string) :
  Forall (fun t => plain t = true) tokens -> blank ws = true ->
  comma_or_space_split (Py.join " " tokens ++ ws) = tokens.
Proof.
  intros H Hws. unfold comma_or_space_split.
  rewrite contains_append, (join_no_comma tokens H), (blank_no_comma ws Hws).
  now apply split_join.
Qed.

Lemma upper_hex_plain_char (c : ascii) :
  Re.is_upper_hex c = true ->
  negb (Py.is_space c) && negb (Ascii.eqb c ","%char) = true.
Proof. destruct c as [[] [] [] [] [] [] [] []]; try discriminate; reflexivity. Qed.

Lemma upper_hex_plain (s : string) :
  (1 <= String.length s)%nat ->
  Forall (fun c => Re.is_upper_hex c = true) (chars s) -> plain s = true.
Proof.
  intros Hl H. unfold plain. apply andb_true_iff. split.
  - destruct s; [simpl in Hl; lia | reflexivity].
  - apply forallb_forall. rewrite Forall_forall in H.
    intros c Hc. apply upper_hex_plain_char. now apply H.
Qed.

Lemma upper_hex_char_fixed (c : ascii) :
  Re.is_upper_hex c = true -> Py.upper_char c = c.
Proof. destruct c as [[] [] [] [] [] [] [] []]; try discriminate; reflexivity. Qed.

Lemma clean_up_hex_fixed (s : string) :
  Forall (fun c => Re.is_upper_hex c = true) (chars s) -> clean_up_hex s = s.
Proof.
  unfold clean_up_hex, chars. induction s as [|c s IH]; intros H.
  - reflexivity.
  - inversion H as [|? ? Hc Hs]; subst. simpl.
    rewrite (upper_hex_char_fixed c Hc), Hc. f_equal. now apply IH.
Qed.

(** X5.  A line made of pieces joined by single spaces, each piece not
    empty and without white space or comma, is split by
    [comma_or_space_split] into those pieces again, also when white space
    (the end of a line) follows. *)
Theorem comma_or_space_split_joined (tokens : list string) (ws : string) :
  Forall (fun t => plain t = true) tokens -> blank ws = true ->
  comma_or_space_split (Py.join " " tokens ++ ws) = tokens
  /\ get_input [Py.join " " tokens ++ ws] [] InHex = tokens
  /\ get_input [] [Py.join " " tokens ++ ws] InInt = tokens.
Proof.
  intros H Hws. pose proof (comma_or_space_split_join tokens ws H Hws) as E.
  split; [exact E|].
  unfold get_input. cbn [flat_map]. rewrite E, app_nil_r. split; reflexivity.
Qed.

Lemma comma_or_space_split_joined_witness :
  Forall (fun t => plain t = true) ["E2"; "82"; "AC"] /\ blank newline = true
  /\ comma_or_space_split (Py.join " " ["E2"; "82"; "AC"] ++ newline)
     = ["E2"; "82"; "AC"].
Proof.
  assert (H : Forall (fun t => plain t = true) ["E2"; "82"; "AC"])
    by (repeat constructor).
  assert (Hws : blank newline = true) by reflexivity.
  split; [exact H | split; [exact Hws|]].
  exact (proj1 (comma_or_space_split_joined _ _ H Hws)).
Defined.

(** ** Code points written and read back as text *)

Lemma code_point_hex_chars (cp : Z) :
  0 <= cp ->
  Forall (fun c => Re.is_upper_hex c = true) (chars (code_point_hex cp)).
Proof.
  intros H. rewrite code_point_hex_eq by exact H.
  apply pad_hex_chars. apply upper_digits_chars. lia.
Qed.

Lemma code_point_hex_value (cp : Z) :
  0 <= cp -> Py.int (code_point_hex cp) 16 = Ok cp.
Proof.
  intros H. rewrite code_point_hex_eq by exact H.
  pose proof (digits_length_pos 16 cp) as Hpos.
  rewrite pad_hex_value by (rewrite length_upper; exact Hpos).
  rewrite int_nonempty by (rewrite length_upper; exact Hpos).
  rewrite int_acc_upper. apply digits_value; lia.
Qed.

Lemma code_point_hex_length_min (cp : Z) :
  (4 <= String.length (code_point_hex cp))%nat.
Proof.
  unfold code_point_hex. rewrite pad_hex_length.
  destruct (String.length _ <=? 4)%nat; lia.
Qed.

Lemma code_points_of_strs_hex (cps : list Z) :
  Forall (fun cp => 0 <= cp) cps ->
  code_points_of_strs InHex (map code_point_hex cps)
  = (map CodePoint cps, Ok tt).
Proof.
  induction 1 as [|cp cps Hcp Hcps IH]; [reflexivity|].
  cbn [map code_points_of_strs].
  rewrite clean_up_hex_fixed by (now apply code_point_hex_chars).
  rewrite code_point_hex_value by exact Hcp. now rewrite IH.
Qed.

(** X6.  The line printed for output type 'chars' in format 'hex' is read
    back, as an argument or as a line of the standard input, into the same
    code points, for any code points that are not negative: the padding
    never cuts a digit, of values above 0xFFFFFF either. *)
Theorem chars_hex_text_round_trip (cps : list Z) :
  Forall (fun cp => 0 <= cp) cps ->
  input_to_code_points [code_points_to_output_chars_hex cps] [] InChars InHex
  = (map CodePoint cps, Ok tt)
  /\ input_to_code_points [] [code_points_to_output_chars_hex cps ++ newline]
       InChars InHex
     = (map CodePoint cps, Ok tt).
Proof.
  intros H.
  assert (Hplain : Forall (fun t => plain t = true) (map code_point_hex cps)).
  { apply Forall_map. eapply Forall_impl; [|exact H]. intros cp Hcp.
    apply upper_hex_plain;
      [pose proof (code_point_hex_length_min cp); lia
      | now apply code_point_hex_chars]. }
  unfold input_to_code_points, code_points_to_output_chars_hex, get_input.
  cbn [flat_map]. rewrite !app_nil_r. split.
  - rewrite <- (append_nil_r (Py.join " " _)).
    rewrite comma_or_space_split_join by (exact Hplain || reflexivity).
    now apply code_points_of_strs_hex.
  - rewrite comma_or_space_split_join by (exact Hplain || reflexivity).
    now apply code_points_of_strs_hex.
Qed.

Lemma chars_hex_text_round_trip_witness :
  Forall (fun cp => 0 <= cp) [0x41; 0x1F600; 0x1234567]
  /\ code_points_to_output_chars_hex [0x41; 0x1F600; 0x1234567]
     = "0041 01F600 1234567"
  /\ input_to_code_points ["0041 01F600 1234567"] [] InChars InHex
     = ([CodePoint 0x41; CodePoint 0x1F600; CodePoint 0x1234567], Ok tt).
Proof.
  assert (H : Forall (fun cp => 0 <= cp) [0x41; 0x1F600; 0x1234567])
    by (repeat constructor; lia).
  split; [exact H | split; [reflexivity|]].
  exact (proj1 (chars_hex_text_round_trip _ H)).
Defined.

(** *** Decimal *)

Lemma decimal_digit_char (d : Z) :
  0 <= d < 10 -> is_decimal (Py.digit_char d) = true.
Proof.
  revert d. apply (forallb_below (fun d => is_decimal (Py.digit_char d)) 10).
  vm_compute. reflexivity.
Qed.

Lemma digits10_decimal (fuel : nat) (n : Z) :
  Forall (fun c => is_decimal c = true) (chars (Py.digits_aux 10 fuel n "")).
Proof.
  assert (Hb : 2 <= 10 <= 16) by lia.
  revert n. induction fuel as [|fuel IH]; intros n.
  - constructor.
  - simpl Py.digits_aux.
    assert (Hm : 0 <= n mod 10 < 10) by (apply Z.mod_pos_bound; lia).
    pose proof (decimal_digit_char _ Hm) as Hc.
    destruct (n / 10 =? 0).
    + repeat constructor. exact Hc.
    + rewrite (digits_aux_app 10), chars_append. apply Forall_app. split.
      * apply IH.
      * repeat constructor. exact Hc.
Qed.

Lemma decimal_char (c : ascii) :
  is_decimal c = true ->
  Py.is_space c = false /\ Ascii.eqb c ","%char = false
  /\ Ascii.eqb c "_"%char = false
  /\ exists d, Py.digit_value c = Some d /\ (d <? 10) = true.
Proof.
  destruct c as [[] [] [] [] [] [] [] []]; try discriminate; intros _;
    repeat split; eexists; (split; [cbv; reflexivity | reflexivity]).
Qed.

Lemma dec_acc_decimal (s : string) :
  forall acc after_digit,
    Forall (fun c => is_decimal c = true) (chars s) ->
    s <> "" \/ after_digit = true ->
    Py.dec_acc s acc after_digit = Py.int_acc 10 s acc.
Proof.
  unfold chars. induction s as [|c s IH]; intros acc b H Hne.
  - destruct Hne as [Hne | ->]; [congruence | reflexivity].
  - inversion H as [|? ? Hc Hs]; subst. simpl.
    destruct (decimal_char c Hc) as (_ & _ & Hu & d & Hd & Hlt).
    rewrite Hu, Hd, Hlt. apply IH; [exact Hs | now right].
Qed.

Lemma rstrip_no_space (s : string) :
  forallb (fun c => negb (Py.is_space c)) (chars s) = true -> Py.rstrip s = s.
Proof.
  unfold chars. induction s as [|c s IH]; simpl; [reflexivity|].
  rewrite andb_true_iff, negb_true_iff. intros [Hc Hs].
  rewrite (IH Hs), Hc. destruct s; reflexivity.
Qed.

Lemma decimal_no_space (s : string) :
  Forall (fun c => is_decimal c = true) (chars s) ->
  forallb (fun c => negb (Py.is_space c) && negb (Ascii.eqb c ","%char))
          (chars s) = true.
Proof.
  intros H. apply forallb_forall. rewrite Forall_forall in H.
  intros c Hc. destruct (decimal_char c (H c Hc)) as (H1 & H2 & _).
  now rewrite H1, H2.
Qed.

Lemma int_dec_digits (n : Z) :
  0 <= n -> Py.int_dec (Py.digits 10 n) = Ok n.
Proof.
  intros Hn. assert (Hb : 2 <= 10 <= 16) by lia.
  pose proof (digits10_decimal (S (Z.to_nat (Z.log2 n))) n) as Hd.
  fold (Py.digits 10 n) in Hd.
  pose proof (digits_length_pos 10 n) as Hpos.
  pose proof (digits_value 10 Hb n Hn) as Hv.
  pose proof (decimal_no_space _ Hd) as Hns.
  unfold Py.int_dec.
  destruct (Py.digits 10 n) as [|c s] eqn:E; [simpl in Hpos; lia|].
  assert (Hc : is_decimal c = true) by (inversion Hd; assumption).
  destruct (decimal_char c Hc) as (Hsp & _).
  cbn [Py.lstrip]. rewrite Hsp.
  rewrite rstrip_no_space.
  - assert (Hdec : Py.dec_acc (String c s) 0 false = Ok n).
    { rewrite dec_acc_decimal; [exact Hv | exact Hd | left; discriminate]. }
    destruct c as [[] [] [] [] [] [] [] []]; try discriminate Hc; exact Hdec.
  - apply forallb_forall. intros a Ha.
    rewrite forallb_forall in Hns. specialize (Hns a Ha).
    apply andb_true_iff in Hns. tauto.
Qed.

Lemma int_dec_str (n : Z) : Py.int_dec (Py.str n) = Ok n.
Proof.
  unfold Py.str. destruct (Z.ltb_spec n 0) as [Hneg|Hpos].
  - assert (Hn : 0 <= - n) by lia.
    assert (Hb : 2 <= 10 <= 16) by lia.
    pose proof (digits10_decimal (S (Z.to_nat (Z.log2 (- n)))) (- n)) as Hd.
    fold (Py.digits 10 (- n)) in Hd.
    pose proof (digits_length_pos 10 (- n)) as Hlen.
    pose proof (digits_value 10 Hb (- n) Hn) as Hv.
    pose proof (decimal_no_space _ Hd) as Hns.
    unfold Py.int_dec. cbn [append Py.lstrip].
    change (Py.is_space "-"%char) with false. cbn iota.
    rewrite rstrip_no_space.
    + rewrite dec_acc_decimal, Hv; [f_equal; lia | exact Hd|].
      left. destruct (Py.digits 10 (- n)); [simpl in Hlen; lia | discriminate].
    + cbn [chars list_ascii_of_string forallb].
      change (Py.is_space "-"%char) with false. cbn [negb andb].
      apply forallb_forall. intros a Ha.
      rewrite forallb_forall in Hns. specialize (Hns a Ha).
      apply andb_true_iff in Hns. tauto.
  - now apply int_dec_digits.
Qed.

Lemma str_plain (n : Z) : plain (Py.str n) = true.
Proof.
  assert (Hb : 2 <= 10 <= 16) by lia.
  assert (H : forall m, plain (Py.digits 10 m) = true
                        /\ plain ("-" ++ Py.digits 10 m) = true).
  { intros m.
    pose proof (digits10_decimal (S (Z.to_nat (Z.log2 m))) m) as Hd.
    fold (Py.digits 10 m) in Hd.
    pose proof (digits_length_pos 10 m) as Hlen.
    pose proof (decimal_no_space _ Hd) as Hns.
    unfold plain. cbn [append chars list_ascii_of_string forallb].
    fold (chars (Py.digits 10 m)). rewrite Hns.
    destruct (Py.digits 10 m); [simpl in Hlen; lia|]. split; reflexivity. }
  unfold Py.str. destruct (n <? 0); apply H.
Qed.



(** ** Byte sequences written and read back as text *)

Lemma bin_input_of_hex_eq (inputs : list string) :
  forall bin_input,
    bin_input_of InHex bin_input inputs = bin_input_of_hex bin_input inputs.
Proof.
  induction inputs as [|input_str rest IH]; intros bin_input; [reflexivity|].
  cbn [bin_input_of bin_input_of_hex].
  destruct (hex_to_binary (clean_up_hex input_str)); [apply IH | reflexivity].
Qed.

Lemma byte_bits_length (b : Z) :
  0 <= b < 256 -> String.length (byte_bits b) = 8%nat.
Proof. intros H. apply (byte_hex_bits b H). Qed.

Lemma binary_to_bytes_bits (char_bytes : list Z) :
  Forall (fun b => 0 <= b < 256) char_bytes ->
  binary_to_bytes (String.concat "" (map byte_bits char_bytes))
  = map byte_bits char_bytes.
Proof.
  intros H. apply binary_to_bytes_concat. apply Forall_map.
  eapply Forall_impl; [|exact H]. intros b. apply byte_bits_length.
Qed.

Lemma multibyte_then (p n bound a : Z) (vs : list Z) (rest : list string) :
  leader_byte p n bound -> 0 <= a < bound -> 2 <= n <= 4 ->
  Forall (fun v => 0 <= v < 64) vs -> n - 1 = Z.of_nat (List.length vs) ->
  chunk_loop (Chunker 0 []) ((leader p a :: map continuation vs) ++ rest)
  = let (evs, ending) := chunk_loop (Chunker 0 []) rest in
    (Yield (leader p a :: map continuation vs) :: evs, ending).
Proof.
  intros Hlead Ha Hn Hvs Hlen. cbn [app].
  rewrite (leader_continuations_then _ n).
  - unfold too_long. cbn [List.length]. rewrite length_map.
    destruct (Z.gtb_spec (Z.of_nat (S (List.length vs))) 4); [lia|].
    reflexivity.
  - apply (Hlead a Ha).
  - apply Forall_map. eapply Forall_impl; [|exact Hvs].
    intros v Hv. apply (continuation_byte v Hv).
  - now rewrite length_map.
  - lia.
Qed.

(** The bytes of an encodable code point: a chunk for the chunker,
    whatever follows, and the code point for the assembler. *)
Lemma encoded_chunk (cp : Z) :
  encodable cp ->
  code_point_char_bytes cp = Ok (char_bytes_of cp)
  /\ Forall (fun b => 0 <= b < 256) (char_bytes_of cp)
  /\ (forall rest,
        chunk_loop (Chunker 0 []) (map byte_bits (char_bytes_of cp) ++ rest)
        = let (evs, ending) := chunk_loop (Chunker 0 []) rest in
          (Yield (map byte_bits (char_bytes_of cp)) :: evs, ending))
  /\ char_bytes_to_code_point (map byte_bits (char_bytes_of cp)) = Ok cp.
Proof.
  intros [Hr Hs].
  destruct (code_point_bytes_round_trip cp Hr Hs) as (bs & E & _ & Hcp).
  assert (Eb : char_bytes_of cp = bs) by (unfold char_bytes_of; now rewrite E).
  rewrite Eb. split; [exact E|].
  split; [now apply (code_point_char_bytes_range cp)|].
  split; [|exact Hcp].
  intros rest.
  destruct (code_point_char_bytes_cases cp Hr Hs)
    as [[H E']|[[H E']|[[H E']|[H E']]]];
    rewrite E' in E; injection E as <-.
  - cbn [map app chunk_loop].
    rewrite chunk_step_ascii by (apply (ascii_byte cp H)).
    cbn [bytes_togo char_bytes app]. change (0 >? 0) with false. cbn iota.
    destruct (chunk_loop (Chunker 0 []) rest). reflexivity.
  - apply (multibyte_then 0xC0 2 32 _ [Z.land cp 0x3F]);
      [exact leader_byte_2 | apply (two_byte_bits cp H) | lia
      | six_bits_all | reflexivity].
  - apply (multibyte_then 0xE0 3 16 _
             [Z.land (Z.shiftr cp 6) 0x3F; Z.land cp 0x3F]);
      [exact leader_byte_3 | apply (three_byte_bits cp H) | lia
      | six_bits_all | reflexivity].
  - apply (multibyte_then 0xF0 4 8 _
             [Z.land (Z.shiftr cp 12) 0x3F; Z.land (Z.shiftr cp 6) 0x3F;
              Z.land cp 0x3F]);
      [exact leader_byte_4 | apply (four_byte_bits cp H) | lia
      | six_bits_all | reflexivity].
Qed.

Lemma chunk_encoded_sequence (cps : list Z) :
  Forall encodable cps ->
  chunk_byte_sequence (map byte_bits (flat_map char_bytes_of cps))
  = (map (fun cp => Yield (map byte_bits (char_bytes_of cp))) cps, Ok tt).
Proof.
  unfold chunk_byte_sequence.
  induction 1 as [|cp cps Hcp Hcps IH]; [reflexivity|].
  cbn [flat_map map]. rewrite map_app.
  destruct (encoded_chunk cp Hcp) as (_ & _ & Hthen & _).
  rewrite Hthen, IH. reflexivity.
Qed.

Lemma code_points_of_encoded (cps : list Z) :
  Forall encodable cps ->
  code_points_of_trace
    (map (fun cp => Yield (map byte_bits (char_bytes_of cp))) cps) (Ok tt)
  = (map CodePoint cps, Ok tt).
Proof.
  induction 1 as [|cp cps Hcp Hcps IH]; [reflexivity|].
  cbn [map code_points_of_trace].
  destruct (encoded_chunk cp Hcp) as (_ & _ & _ & ->). now rewrite IH.
Qed.

Section TextRoundTrip.

(** A format of input and of output, the string [tok] it prints for a
    byte, and the bytes [wanted] for which that string is read back as
    the eight bits of the byte. *)
Variable fmt_in : input_format.
Variable fmt_out : output_format.
Variable tok : Z -> string.
Variable wanted : Z -> Prop.

Hypothesis wanted_byte : forall b, wanted b -> 0 <= b < 256.
Hypothesis tok_plain : forall b, wanted b -> plain (tok b) = true.
Hypothesis tok_bits :
  forall b bin_input rest, wanted b ->
    bin_input_of fmt_in bin_input (tok b :: rest)
    = bin_input_of fmt_in (bin_input ++ byte_bits b) rest.
Hypothesis splits :
  forall input_args stdin,
    get_input input_args stdin fmt_in
    = flat_map comma_or_space_split
        (match input_args with [] => stdin | _ => input_args end).
Hypothesis line_of :
  forall cp, code_point_to_output_bytes fmt_out cp
             = (char_bytes <- code_point_char_bytes cp ;;
                Ok (Py.join " " (map tok char_bytes))).

Lemma bin_input_of_toks (char_bytes : list Z) :
  forall bin_input,
    Forall wanted char_bytes ->
    bin_input_of fmt_in bin_input (map tok char_bytes)
    = Ok (bin_input ++ String.concat "" (map byte_bits char_bytes)).
Proof.
  induction char_bytes as [|b bs IH]; intros bin_input H.
  - simpl. now rewrite append_nil_r.
  - inversion H as [|? ? Hb Hbs]; subst. cbn [map].
    rewrite tok_bits by exact Hb.
    rewrite (IH _ Hbs), concat_cons. now rewrite append_assoc.
Qed.

Lemma lines_of_encodable (cps : list Z) :
  Forall encodable cps ->
  code_points_to_output_bytes fmt_out cps
  = (map (fun cp => Py.join " " (map tok (char_bytes_of cp))) cps, Ok tt).
Proof.
  induction 1 as [|cp cps Hcp Hcps IH]; [reflexivity|].
  cbn [map code_points_to_output_bytes]. rewrite line_of.
  destruct (encoded_chunk cp Hcp) as (-> & _). cbn [bind]. now rewrite IH.
Qed.

Lemma toks_of_lines (cps : list Z) (ws : string) :
  blank ws = true ->
  Forall (fun cp => Forall wanted (char_bytes_of cp)) cps ->
  flat_map comma_or_space_split
    (map (fun cp => Py.join " " (map tok (char_bytes_of cp)) ++ ws) cps)
  = map tok (flat_map char_bytes_of cps).
Proof.
  intros Hws. induction 1 as [|cp cps Hcp Hcps IH]; [reflexivity|].
  cbn [map flat_map]. rewrite IH, map_app. f_equal.
  apply comma_or_space_split_join; [|exact Hws].
  apply Forall_map. eapply Forall_impl; [|exact Hcp]. exact tok_plain.
Qed.

Lemma decode_toks (cps : list Z) (inputs : list string) :
  Forall encodable cps ->
  Forall (fun cp => Forall wanted (char_bytes_of cp)) cps ->
  inputs = map tok (flat_map char_bytes_of cps) ->
  match bin_input_of fmt_in "" inputs with
  | Raise e => ([], Raise e)
  | Ok bin_input =>
      let (evs, ending) := chunk_byte_sequence (binary_to_bytes bin_input) in
      code_points_of_trace evs ending
  end = (map CodePoint cps, Ok tt).
Proof.
  intros He Hw ->.
  assert (Hall : Forall wanted (flat_map char_bytes_of cps)).
  { clear He. induction Hw as [|cp cps Hcp Hcps IH]; [constructor|].
    cbn [flat_map]. apply Forall_app. split; assumption. }
  rewrite bin_input_of_toks by exact Hall. cbn [append].
  rewrite binary_to_bytes_bits
    by (eapply Forall_impl; [|exact Hall]; exact wanted_byte).
  rewrite chunk_encoded_sequence by exact He.
  now apply code_points_of_encoded.
Qed.

(** The lines printed for the code points, one for each, are decoded to
    the code points, given as arguments or as the standard input. *)
Lemma lines_round_trip (cps : list Z) :
  Forall encodable cps ->
  Forall (fun cp => Forall wanted (char_bytes_of cp)) cps ->
  exists lines,
    code_points_to_output_bytes fmt_out cps = (lines, Ok tt)
    /\ List.length lines = List.length cps
    /\ input_to_code_points [] (map (fun line => line ++ newline) lines)
         InBytes fmt_in
       = (map CodePoint cps, Ok tt)
    /\ (cps <> [] ->
        input_to_code_points lines [] InBytes fmt_in
        = (map CodePoint cps, Ok tt)).
Proof.
  intros He Hw. eexists. split; [now apply lines_of_encodable|].
  split; [now rewrite length_map|].
  unfold input_to_code_points. split.
  - apply decode_toks; [exact He | exact Hw|].
    rewrite splits, map_map. now apply toks_of_lines.
  - intros Hne. apply decode_toks; [exact He | exact Hw|].
    rewrite splits.
    assert (E : match map (fun cp => Py.join " " (map tok (char_bytes_of cp))) cps
                with [] => [] | _ =>
                  map (fun cp => Py.join " " (map tok (char_bytes_of cp))) cps
                end
                = map (fun cp => Py.join " " (map tok (char_bytes_of cp)) ++ "")
                      cps).
    { destruct cps as [|cp cps']; [congruence|].
      apply map_ext. intros c. now rewrite append_nil_r. }
    rewrite E. now apply toks_of_lines.
Qed.

End TextRoundTrip.

Lemma byte_hex_plain (b : Z) : 0 <= b < 256 -> plain (byte_hex b) = true.
Proof.
  revert b. apply (forallb_below byte_hex_plain_b 256). vm_compute. reflexivity.
Qed.

Lemma bin_whole (b : Z) :
  128 <= b < 256 -> Py.drop 2 (Py.bin b) = byte_bits b.
Proof.
  intros H.
  assert (E : bin_whole_b b = true).
  { assert (Hb : 0 <= b < Z.of_nat 256) by lia. clear H. revert b Hb.
    apply (forallb_below bin_whole_b 256). vm_compute. reflexivity. }
  unfold bin_whole_b in E. apply orb_true_iff in E. destruct E as [E|E].
  - apply Z.ltb_lt in E. lia.
  - now apply String.eqb_eq in E.
Qed.

(** X8.  The lines printed for output type 'bytes' in format 'hex', one
    for each code point, are decoded back to those code points, in order
    and with no warning, whether they are given as arguments or piped to
    the standard input: so for every list of code points from 0 to
    0x10FFFF without surrogates. *)
Theorem bytes_hex_text_round_trip (cps : list Z) :
  Forall encodable cps ->
  exists lines,
    code_points_to_output_bytes OutHex cps = (lines, Ok tt)
    /\ List.length lines = List.length cps
    /\ input_to_code_points [] (map (fun line => line ++ newline) lines)
         InBytes InHex
       = (map CodePoint cps, Ok tt)
    /\ (cps <> [] ->
        input_to_code_points lines [] InBytes InHex
        = (map CodePoint cps, Ok tt)).
Proof.
  intros He.
  apply (lines_round_trip InHex OutHex byte_hex (fun b => 0 <= b < 256)).
  - auto.
  - exact byte_hex_plain.
  - intros b bin_input rest Hb. cbn [bin_input_of].
    now rewrite (proj1 (byte_hex_bits b Hb)).
  - reflexivity.
  - reflexivity.
  - exact He.
  - eapply Forall_impl; [|exact He]. intros cp Hcp.
    apply (encoded_chunk cp Hcp).
Qed.

Lemma bytes_hex_text_round_trip_witness :
  Forall encodable [0x48; 0xE9; 0x20AC; 0x1F600]
  /\ code_points_to_output_bytes OutHex [0x48; 0xE9; 0x20AC; 0x1F600]
     = (["48"; "C3 A9"; "E2 82 AC"; "F0 9F 98 80"], Ok tt)
  /\ exists lines,
       code_points_to_output_bytes OutHex [0x48; 0xE9; 0x20AC; 0x1F600]
       = (lines, Ok tt)
       /\ input_to_code_points [] (map (fun line => line ++ newline) lines)
            InBytes InHex
          = (map CodePoint [0x48; 0xE9; 0x20AC; 0x1F600], Ok tt).
Proof.
  assert (He : Forall encodable [0x48; 0xE9; 0x20AC; 0x1F600])
    by (repeat constructor; unfold surrogate; lia).
  split; [exact He | split; [reflexivity|]].
  destruct (bytes_hex_text_round_trip _ He) as (lines & Hl & _ & Hin & _).
  exists lines. split; [exact Hl | exact Hin].
Defined.

Lemma lor_high_byte (p : Z) (bound : nat) :
  forallb (fun a => (128 <=? Z.lor p a) && (Z.lor p a <? 256)) (below bound)
  = true ->
  forall a, 0 <= a < Z.of_nat bound -> 128 <= Z.lor p a < 256.
Proof.
  intros H a Ha. pose proof (forallb_below _ _ H a Ha) as E. cbn beta in E.
  apply andb_true_iff in E. destruct E as [E1 E2].
  apply Z.leb_le in E1. apply Z.ltb_lt in E2. lia.
Qed.

Lemma char_bytes_high (cp : Z) :
  encodable cp -> 0x80 <= cp ->
  Forall (fun b => 128 <= b < 256) (char_bytes_of cp).
Proof.
  intros [Hr Hs] Hhigh.
  assert (Hc : forall v, 128 <= Z.lor 0x80 (Z.land v 0x3F) < 256).
  { intros v. apply (lor_high_byte 0x80 64); [vm_compute; reflexivity|].
    apply six_bits. }
  unfold char_bytes_of.
  destruct (code_point_char_bytes_cases cp Hr Hs)
    as [[H E]|[[H E]|[[H E]|[H E]]]]; [lia| | |];
    rewrite E; repeat constructor; try apply Hc.
  - apply (lor_high_byte 0xC0 32); [vm_compute; reflexivity|].
    apply (two_byte_bits cp H).
  - apply (lor_high_byte 0xC0 32); [vm_compute; reflexivity|].
    apply (two_byte_bits cp H).
  - apply (lor_high_byte 0xE0 16); [vm_compute; reflexivity|].
    apply (three_byte_bits cp H).
  - apply (lor_high_byte 0xE0 16); [vm_compute; reflexivity|].
    apply (three_byte_bits cp H).
  - apply (lor_high_byte 0xF0 8); [vm_compute; reflexivity|].
    apply (four_byte_bits cp H).
  - apply (lor_high_byte 0xF0 8); [vm_compute; reflexivity|].
    apply (four_byte_bits cp H).
Qed.

(** X9.  In format 'int' the bits of a number are appended as [bin] gives
    them, without padding.  Bytes from 128 on have eight bits, so the
    lines printed for output type 'bytes' in format 'int' are decoded back
    to their code points whenever no code point is below 0x80. *)
Theorem bytes_int_text_round_trip (cps : list Z) :
  Forall (fun cp => encodable cp /\ 0x80 <= cp) cps ->
  exists lines,
    code_points_to_output_bytes OutInt cps = (lines, Ok tt)
    /\ List.length lines = List.length cps
    /\ input_to_code_points [] (map (fun line => line ++ newline) lines)
         InBytes InInt
       = (map CodePoint cps, Ok tt)
    /\ (cps <> [] ->
        input_to_code_points lines [] InBytes InInt
        = (map CodePoint cps, Ok tt)).
Proof.
  intros H.
  apply (lines_round_trip InInt OutInt Py.str (fun b => 128 <= b < 256)).
  - intros b Hb. lia.
  - intros b _. apply str_plain.
  - intros b bin_input rest Hb. cbn [bin_input_of].
    rewrite int_dec_str. cbn [bind]. now rewrite bin_whole.
  - reflexivity.
  - reflexivity.
  - eapply Forall_impl; [|exact H]. intros cp [He _]. exact He.
  - eapply Forall_impl; [|exact H]. intros cp [He Hh].
    now apply char_bytes_high.
Qed.

Lemma bytes_int_text_round_trip_witness :
  Forall (fun cp => encodable cp /\ 0x80 <= cp) [0xE9; 0x20AC]
  /\ code_points_to_output_bytes OutInt [0xE9; 0x20AC]
     = (["195 169"; "226 130 172"], Ok tt)
  /\ input_to_code_points ["195 169"; "226 130 172"] [] InBytes InInt
     = ([CodePoint 0xE9; CodePoint 0x20AC], Ok tt).
Proof.
  assert (H : Forall (fun cp => encodable cp /\ 0x80 <= cp) [0xE9; 0x20AC])
    by (repeat constructor; unfold surrogate; lia).
  split; [exact H | split; [reflexivity|]].
  destruct (bytes_int_text_round_trip _ H) as (lines & Hl & _ & _ & Hin).
  injection Hl as <-. apply Hin. discriminate.
Defined.

(** X10.  For a code point from 1 to 0x7F the same path loses it: the
    line printed in format 'int' is the decimal number of the one byte,
    and that line, read as input of type 'bytes' in format 'int', has
    fewer than eight bits and yields no code point. *)
Theorem bytes_int_ascii_lost (cp : Z) :
  0 < cp < 0x80 ->
  code_point_to_output_bytes OutInt cp = Ok (Py.str cp)
  /\ no_code_point (fst (input_to_code_points [Py.str cp] [] InBytes InInt))
     = true.
Proof.
  intros H.
  assert (E : int_byte_lost_b cp = true).
  { assert (Hb : 0 <= cp < Z.of_nat 128) by lia. clear H. revert cp Hb.
    apply (forallb_below int_byte_lost_b 128). vm_compute. reflexivity. }
  unfold int_byte_lost_b in E. apply orb_true_iff in E.
  destruct E as [E|E]; [apply Z.eqb_eq in E; lia|].
  apply andb_true_iff in E. destruct E as [E1 E2]. split; [|exact E2].
  destruct (code_point_to_output_bytes OutInt cp); [|discriminate].
  apply String.eqb_eq in E1. now subst.
Qed.

Lemma bytes_int_ascii_lost_witness :
  0 < 0x41 < 0x80
  /\ code_point_to_output_bytes OutInt 0x41 = Ok "65"
  /\ input_to_code_points ["65"] [] InBytes InInt
     = ([Logged misplaced_continuation_byte "1000001"], Ok tt)
  /\ no_code_point (fst (input_to_code_points ["65"] [] InBytes InInt)) = true.
Proof.
  assert (H : 0 < 0x41 < 0x80) by lia.
  destruct (bytes_int_ascii_lost 0x41 H) as [H1 H2].
  split; [exact H | split; [exact H1 | split; [reflexivity | exact H2]]].
Defined.

(** ** What the decoder does not check *)

Lemma two_byte_payload (cp : Z) :
  0 <= cp < 0x800 ->
  0 <= Z.shiftr cp 6 < 32
  /\ fold_left add_six [Z.land cp 0x3F] (Z.shiftr cp 6) = cp.
Proof. intros H. cbn [fold_left]. split; split_bits. Qed.

Lemma three_byte_payload (cp : Z) :
  0 <= cp < 0x10000 ->
  0 <= Z.shiftr cp 12 < 16
  /\ fold_left add_six [Z.land (Z.shiftr cp 6) 0x3F; Z.land cp 0x3F]
       (Z.shiftr cp 12) = cp.
Proof. intros H. cbn [fold_left]. split; split_bits. Qed.

Lemma four_byte_payload (cp : Z) :
  0 <= cp < 0x200000 ->
  0 <= Z.shiftr cp 18 < 8
  /\ fold_left add_six
       [Z.land (Z.shiftr cp 12) 0x3F; Z.land (Z.shiftr cp 6) 0x3F;
        Z.land cp 0x3F]
       (Z.shiftr cp 18) = cp.
Proof. intros H. cbn [fold_left]. split; split_bits. Qed.

(** X11.  The decoder checks neither that a sequence is the shortest one
    for its value nor that the value is at most 0x10FFFF: every value
    below 0x200000 is decoded, without warning, from the four bytes that
    hold its 21 bits, every value below 0x10000 from three bytes as well,
    and every value below 0x800 from two bytes as well. *)
Theorem decoder_takes_any_payload (cp : Z) :
  0 <= cp < 0x200000 ->
  (let chunk := [leader 0xF0 (Z.shiftr cp 18);
                 continuation (Z.land (Z.shiftr cp 12) 0x3F);
                 continuation (Z.land (Z.shiftr cp 6) 0x3F);
                 continuation (Z.land cp 0x3F)] in
   chunk_byte_sequence chunk = ([Yield chunk], Ok tt)
   /\ char_bytes_to_code_point chunk = Ok cp)
  /\ (cp < 0x10000 ->
      let chunk := [leader 0xE0 (Z.shiftr cp 12);
                    continuation (Z.land (Z.shiftr cp 6) 0x3F);
                    continuation (Z.land cp 0x3F)] in
      chunk_byte_sequence chunk = ([Yield chunk], Ok tt)
      /\ char_bytes_to_code_point chunk = Ok cp)
  /\ (cp < 0x800 ->
      let chunk := [leader 0xC0 (Z.shiftr cp 6);
                    continuation (Z.land cp 0x3F)] in
      chunk_byte_sequence chunk = ([Yield chunk], Ok tt)
      /\ char_bytes_to_code_point chunk = Ok cp).
Proof.
  intros H. split; [|split].
  - assert (H4 : 0 <= cp < 0x200000) by lia.
    destruct (four_byte_payload cp H4) as [Ha Hcp].
    assert (Hn : 2 <= 4 <= 4) by lia.
    assert (Hvs : Forall (fun v => 0 <= v < 64)
                    [Z.land (Z.shiftr cp 12) 0x3F; Z.land (Z.shiftr cp 6) 0x3F;
                     Z.land cp 0x3F]) by six_bits_all.
    pose proof (multibyte_sequence 0xF0 4 8 _ _ leader_byte_4 Ha Hn Hvs eq_refl)
      as Hseq.
    cbn zeta in Hseq. rewrite Hcp in Hseq. exact Hseq.
  - intros H3'. assert (H3 : 0 <= cp < 0x10000) by lia.
    destruct (three_byte_payload cp H3) as [Ha Hcp].
    assert (Hn : 2 <= 3 <= 4) by lia.
    assert (Hvs : Forall (fun v => 0 <= v < 64)
                    [Z.land (Z.shiftr cp 6) 0x3F; Z.land cp 0x3F])
      by six_bits_all.
    pose proof (multibyte_sequence 0xE0 3 16 _ _ leader_byte_3 Ha Hn Hvs eq_refl)
      as Hseq.
    cbn zeta in Hseq. rewrite Hcp in Hseq. exact Hseq.
  - intros H2'. assert (H2 : 0 <= cp < 0x800) by lia.
    destruct (two_byte_payload cp H2) as [Ha Hcp].
    assert (Hn : 2 <= 2 <= 4) by lia.
    assert (Hvs : Forall (fun v => 0 <= v < 64) [Z.land cp 0x3F])
      by six_bits_all.
    pose proof (multibyte_sequence 0xC0 2 32 _ _ leader_byte_2 Ha Hn Hvs eq_refl)
      as Hseq.
    cbn zeta in Hseq. rewrite Hcp in Hseq. exact Hseq.
Qed.

Lemma decoder_takes_any_payload_witness :
  0 <= 0x2F < 0x200000
  /\ char_bytes_to_code_point ["11000000"; "10101111"] = Ok 0x2F
  /\ char_bytes_to_code_point ["11110000"; "10000000"; "10000000"; "10101111"]
     = Ok 0x2F.
Proof.
  assert (H : 0 <= 0x2F < 0x200000) by lia.
  destruct (decoder_takes_any_payload 0x2F H) as ([_ H4] & _ & H2).
  split; [exact H | split; [|exact H4]].
  apply H2. lia.
Defined.



(** ** Pieces of hexadecimal input *)

Lemma upper_char_idem (c : ascii) :
  Py.upper_char (Py.upper_char c) = Py.upper_char c.
Proof. destruct c as [[] [] [] [] [] [] [] []]; reflexivity. Qed.

Lemma upper_idem (s : string) : Py.upper (Py.upper s) = Py.upper s.
Proof.
  induction s as [|c s IH]; simpl; [reflexivity|].
  now rewrite upper_char_idem, IH.
Qed.

Lemma sub_non_hex_append (s1 s2 : string) :
  Re.sub_non_hex (s1 ++ s2) = Re.sub_non_hex s1 ++ Re.sub_non_hex s2.
Proof.
  induction s1 as [|c s1 IH]; simpl; [reflexivity|].
  destruct (Re.is_upper_hex c); simpl; now rewrite IH.
Qed.

Lemma upper_app (s1 s2 : string) :
  Py.upper (s1 ++ s2) = Py.upper s1 ++ Py.upper s2.
Proof. induction s1 as [|c s1 IH]; simpl; [reflexivity | now rewrite IH]. Qed.

(** X13.  [clean_up_hex] keeps upper-case hexadecimal digits only, does
    not care about the case of its input, changes nothing when applied
    again, and works piece by piece. *)
Theorem clean_up_hex_properties (s1 s2 : string) :
  Forall (fun c => Re.is_upper_hex c = true) (chars (clean_up_hex s1))
  /\ clean_up_hex (Py.upper s1) = clean_up_hex s1
  /\ clean_up_hex (clean_up_hex s1) = clean_up_hex s1
  /\ clean_up_hex (s1 ++ s2) = clean_up_hex s1 ++ clean_up_hex s2.
Proof.
  split; [apply clean_up_hex_chars|]. split; [|split].
  - unfold clean_up_hex. now rewrite upper_idem.
  - apply clean_up_hex_fixed. apply clean_up_hex_chars.
  - unfold clean_up_hex. now rewrite upper_app, sub_non_hex_append.
Qed.

Lemma hex_to_binary_clean (input_str : string) :
  clean_up_hex input_str <> "" ->
  exists v bits,
    Py.int (clean_up_hex input_str) 16 = Ok v
    /\ hex_to_binary (clean_up_hex input_str) = Ok bits.
Proof.
  intros Hne.
  destruct (int_acc_hex_total _ 0 (clean_up_hex_chars input_str)) as [v Hv].
  assert (Hint : Py.int (clean_up_hex input_str) 16 = Ok v)
    by (destruct (clean_up_hex input_str); [congruence | exact Hv]).
  exists v. eexists. split; [exact Hint|].
  unfold hex_to_binary. rewrite Hint. reflexivity.
Qed.

Lemma hex_to_binary_empty : hex_to_binary "" = Raise ValueError.
Proof. reflexivity. Qed.



(** ** Bits and bytes *)

Lemma length_substring_le (s : string) :
  forall n m, (String.length (substring n m s) <= m)%nat.
Proof.
  induction s as [|c s IH]; intros n m.
  - rewrite substring_nil. simpl. lia.
  - destruct n as [|n]; destruct m as [|m]; simpl; try lia.
    + specialize (IH 0%nat m). lia.
    + apply (IH n 0%nat).
    + apply (IH n (S m)).
Qed.

Lemma slices_glue (k : nat) :
  forall s, (String.length s <= 8 * k)%nat ->
    String.concat "" (map (fun i => substring (8 * i) 8 s) (seq 0 k)) = s.
Proof.
  induction k as [|k IH]; intros s H.
  - destruct s; [reflexivity | simpl in H; lia].
  - rewrite <- cons_seq, <- seq_shift. cbn [map]. rewrite map_map.
    assert (E : map (fun i => substring (8 * S i) 8 s) (seq 0 k)
                = map (fun i => substring (8 * i) 8 (Py.drop 8 s)) (seq 0 k)).
    { apply map_ext. intros i.
      replace (8 * S i)%nat with (8 + 8 * i)%nat by lia.
      apply substring_drop. }
    rewrite E, concat_cons, IH by (rewrite length_drop; lia).
    apply substring_take_drop.
Qed.

(** X15.  [binary_to_bytes] loses and adds nothing: the slices put
    together are the bit string again; there is one slice for every eight
    characters, the last one shorter when the length is no multiple of 8,
    and none for the empty string. *)
Theorem binary_to_bytes_glue (binary : string) :
  String.concat "" (binary_to_bytes binary) = binary
  /\ Z.of_nat (List.length (binary_to_bytes binary)) = (Py.len binary + 7) / 8
  /\ Forall (fun byte => (String.length byte <= 8)%nat) (binary_to_bytes binary).
Proof.
  rewrite binary_to_bytes_eq.
  assert (Hq : 0 <= (Py.len binary + 7) / 8)
    by (apply Z.div_pos; unfold Py.len; lia).
  pose proof (Z.div_mod (Py.len binary + 7) 8) as Hdm.
  pose proof (Z.mod_pos_bound (Py.len binary + 7) 8) as Hmb.
  split; [|split].
  - apply slices_glue. unfold Py.len in *. lia.
  - rewrite length_map, length_seq. lia.
  - apply Forall_map. apply Forall_forall. intros i _.
    apply length_substring_le.
Qed.

Lemma pad_binary_whole (binary : string) :
  Py.len binary mod 8 = 0 -> pad_binary binary = binary.
Proof.
  intros H. unfold pad_binary.
  replace ((((Py.len binary - 1) / 8 + 1) * 8) - Py.len binary) with 0.
  - reflexivity.
  - pose proof (Z.div_mod (Py.len binary) 8).
    pose proof (Z.div_mod (Py.len binary - 1) 8).
    pose proof (Z.mod_pos_bound (Py.len binary - 1) 8). lia.
Qed.

(** X16.  [pad_binary] puts fewer than eight zeros in front of the bit
    string and nothing else; the result has a whole number of bytes (the
    empty string stays empty), and padding it again changes nothing. *)
Theorem pad_binary_shape (binary : string) :
  exists k,
    0 <= k < 8
    /\ pad_binary binary = Py.times "0"%char k ++ binary
    /\ Py.len (pad_binary binary) mod 8 = 0
    /\ pad_binary (pad_binary binary) = pad_binary binary.
Proof.
  set (L := Py.len binary).
  pose proof (Z.div_mod (L - 1) 8) as Hdm.
  pose proof (Z.mod_pos_bound (L - 1) 8) as Hmb.
  assert (HL : 0 <= L) by (unfold L, Py.len; lia).
  assert (Hlen : Py.len (pad_binary binary) = ((L - 1) / 8 + 1) * 8).
  { unfold pad_binary. unfold L, Py.len in *.
    rewrite length_append, length_times. lia. }
  assert (Hmod : Py.len (pad_binary binary) mod 8 = 0)
    by (rewrite Hlen; apply Z.mod_mul; lia).
  exists (((L - 1) / 8 + 1) * 8 - L). split; [lia|].
  split; [reflexivity|]. split; [exact Hmod|].
  now apply pad_binary_whole.
Qed.

Lemma concat_app (l1 l2 : list string) :
  String.concat "" (l1 ++ l2) = String.concat "" l1 ++ String.concat "" l2.
Proof.
  induction l1 as [|x l1 IH]; [reflexivity|].
  cbn [app]. now rewrite !concat_cons, IH, append_assoc.
Qed.

Lemma binary_to_bytes_app (k m : nat) (x y : string) :
  String.length x = (8 * k)%nat -> String.length y = (8 * m)%nat ->
  binary_to_bytes (x ++ y) = (binary_to_bytes x ++ binary_to_bytes y)%list.
Proof.
  intros Hx Hy.
  destruct (binary_to_bytes_whole k x Hx) as (_ & Hax & Hcx).
  destruct (binary_to_bytes_whole m y Hy) as (_ & Hay & Hcy).
  rewrite <- Hcx at 1. rewrite <- Hcy at 1. rewrite <- concat_app.
  apply binary_to_bytes_concat. apply Forall_app. now split.
Qed.

Lemma hex_to_binary_length (hex_input bits : string) :
  hex_to_binary hex_input = Ok bits ->
  exists k, String.length bits = (8 * k)%nat.
Proof.
  unfold hex_to_binary. destruct (Py.int hex_input 16) as [v|] eqn:E;
    [|discriminate].
  cbn [bind]. intros H.
  assert (Hv : 0 <= v).
  { destruct hex_input; [discriminate|].
    eapply int_acc_nonneg; [| |exact E]; lia. }
  rewrite drop_bin in H by exact Hv. injection H as <-. eexists.
  apply pad_binary_length. apply digits_length_pos.
Qed.

Lemma bin_input_of_hex_bytes (inputs : list string) :
  forall (bin_input : string) (k : nat),
    Forall (fun input_str => clean_up_hex input_str <> "") inputs ->
    String.length bin_input = (8 * k)%nat ->
    exists bits m,
      bin_input_of_hex bin_input inputs = Ok bits
      /\ String.length bits = (8 * m)%nat
      /\ binary_to_bytes bits
         = (binary_to_bytes bin_input ++ flat_map token_bytes inputs)%list.
Proof.
  induction inputs as [|t rest IH]; intros bin_input k H Hk.
  - exists bin_input, k. cbn. now rewrite app_nil_r.
  - inversion H as [|? ? Ht Hrest]; subst.
    destruct (hex_to_binary_clean t Ht) as (v & tb & _ & Etb).
    destruct (hex_to_binary_length _ _ Etb) as [kt Hkt].
    destruct (IH (bin_input ++ tb) (k + kt)%nat Hrest) as (bits & m & E & Hm & Hb).
    { rewrite length_append. lia. }
    exists bits, m. cbn [bin_input_of_hex flat_map]. rewrite Etb. cbn [bind].
    split; [exact E|]. split; [exact Hm|].
    rewrite Hb, (binary_to_bytes_app k kt) by assumption.
    unfold token_bytes at 2. rewrite Etb. now rewrite <- app_assoc.
Qed.

(** X17.  Every piece of hexadecimal input stands for whole bytes: the
    bytes decoded for a list of pieces that all have a hexadecimal digit
    are the bytes of the first piece, then those of the second, and so on,
    each of eight bits. *)
Theorem pieces_give_whole_bytes (inputs : list string) :
  Forall (fun input_str => clean_up_hex input_str <> "") inputs ->
  exists bin_input,
    bin_input_of_hex "" inputs = Ok bin_input
    /\ binary_to_bytes bin_input = flat_map token_bytes inputs
    /\ Forall (fun byte => String.length byte = 8%nat)
              (binary_to_bytes bin_input).
Proof.
  intros H.
  destruct (bin_input_of_hex_bytes inputs "" 0 H eq_refl)
    as (bits & m & E & Hm & Hb).
  exists bits. split; [exact E|]. split; [exact Hb|].
  apply (binary_to_bytes_whole m bits Hm).
Qed.

Lemma pieces_give_whole_bytes_witness :
  Forall (fun input_str => clean_up_hex input_str <> "") ["E282"; "0xAC"; "0"]
  /\ exists bin_input,
       bin_input_of_hex "" ["E282"; "0xAC"; "0"] = Ok bin_input
       /\ binary_to_bytes bin_input
          = ["11100010"; "10000010"; "10101100"; "00000000"].
Proof.
  assert (H : Forall (fun input_str => clean_up_hex input_str <> "")
                     ["E282"; "0xAC"; "0"])
    by (repeat constructor; vm_compute; discriminate).
  split; [exact H|].
  destruct (pieces_give_whole_bytes _ H) as (bin_input & E & Hb & _).
  exists bin_input. split; [exact E | exact Hb].
Defined.

(** X18.  A byte is printed in format 'hex' without padding, with one
    digit below 0x10 and two digits from there on; either way the string is
    read back, as input of type 'bytes', as the eight bits of the byte. *)
Theorem byte_hex_width (b : Z) :
  0 <= b < 256 ->
  String.length (byte_hex b) = (if b <? 16 then 1%nat else 2%nat)
  /\ hex_to_binary (clean_up_hex (byte_hex b)) = Ok (byte_bits b)
  /\ String.length (byte_bits b) = 8%nat.
Proof.
  intros H. split; [|apply (byte_hex_bits b H)].
  apply Nat.eqb_eq. revert b H.
  apply (forallb_below byte_hex_width_b 256). vm_compute. reflexivity.
Qed.

Lemma byte_hex_width_witness :
  0 <= 0x0A < 256
  /\ byte_hex 0x0A = "A"
  /\ hex_to_binary (clean_up_hex (byte_hex 0x0A)) = Ok "00001010".
Proof.
  assert (H : 0 <= 0x0A < 256) by lia.
  split; [exact H | split; [reflexivity|]].
  exact (proj1 (proj2 (byte_hex_width 0x0A H))).
Defined.

(** ** Sequences of five bytes *)

Lemma leader_byte_5 : leader_byte 0xF8 5 4.
Proof. apply (leader_byte_of_b 0xF8 5 4). vm_compute. reflexivity. Qed.

Lemma five_byte_payload (v : Z) :
  0 <= v < 2 ^ 26 ->
  0 <= Z.shiftr v 24 < 4
  /\ fold_left add_six
       [Z.land (Z.shiftr v 18) 0x3F; Z.land (Z.shiftr v 12) 0x3F;
        Z.land (Z.shiftr v 6) 0x3F; Z.land v 0x3F]
       (Z.shiftr v 24) = v.
Proof.
  intros H. cbn [fold_left]. change (2 ^ 26) with 67108864 in H.
  rewrite !Z.shiftr_div_pow2 by lia.
  change (2 ^ 24) with 16777216.
  split; split_bits.
Qed.

(** X19.  "More than 4 bytes" is a warning and no more: the five bytes
    that hold a value of up to 26 bits behind the leader 111110xx are
    reported, yielded as one chunk all the same, and assembled to that
    value. *)
Theorem five_byte_sequence (v : Z) :
  0 <= v < 2 ^ 26 ->
  let chunk := [leader 0xF8 (Z.shiftr v 24);
                continuation (Z.land (Z.shiftr v 18) 0x3F);
                continuation (Z.land (Z.shiftr v 12) 0x3F);
                continuation (Z.land (Z.shiftr v 6) 0x3F);
                continuation (Z.land v 0x3F)] in
  chunk_byte_sequence chunk
  = ([Warn too_many_bytes (Py.join " " chunk); Yield chunk], Ok tt)
  /\ char_bytes_to_code_point chunk = Ok v
  /\ code_points_of_trace
       [Warn too_many_bytes (Py.join " " chunk); Yield chunk] (Ok tt)
     = ([Logged too_many_bytes (Py.join " " chunk); CodePoint v], Ok tt).
Proof.
  intros H. destruct (five_byte_payload v H) as [Ha Hv].
  assert (Hvs : Forall (fun x => 0 <= x < 64)
                  [Z.land (Z.shiftr v 18) 0x3F; Z.land (Z.shiftr v 12) 0x3F;
                   Z.land (Z.shiftr v 6) 0x3F; Z.land v 0x3F])
    by six_bits_all.
  assert (Hasm : char_bytes_to_code_point
                   (leader 0xF8 (Z.shiftr v 24)
                    :: map continuation
                         [Z.land (Z.shiftr v 18) 0x3F;
                          Z.land (Z.shiftr v 12) 0x3F;
                          Z.land (Z.shiftr v 6) 0x3F; Z.land v 0x3F])
                 = Ok v).
  { rewrite (code_point_leader_continuations 0xF8 5 4 _ _ leader_byte_5 Ha Hvs)
      by discriminate.
    now rewrite Hv. }
  cbn [map] in Hasm. cbn zeta. split; [|split; [exact Hasm|]].
  - apply (chunk_leader_all _ 5).
    + apply (leader_byte_5 _ Ha).
    + repeat constructor; apply continuation_byte; apply six_bits.
    + reflexivity.
    + lia.
  - cbn [code_points_of_trace]. now rewrite Hasm.
Qed.

Lemma five_byte_sequence_witness :
  0 <= 0x3FFFFFF < 2 ^ 26
  /\ chunk_byte_sequence
       ["11111011"; "10111111"; "10111111"; "10111111"; "10111111"]
     = ([Warn too_many_bytes "11111011 10111111 10111111 10111111 10111111";
         Yield ["11111011"; "10111111"; "10111111"; "10111111"; "10111111"]],
        Ok tt)
  /\ char_bytes_to_code_point
       ["11111011"; "10111111"; "10111111"; "10111111"; "10111111"]
     = Ok 0x3FFFFFF.
Proof.
  assert (H : 0 <= 0x3FFFFFF < 2 ^ 26) by (change (2 ^ 26) with 67108864; lia).
  destruct (five_byte_sequence 0x3FFFFFF H) as (H1 & H2 & _).
  split; [exact H | split; [exact H1 | exact H2]].
Defined.

(** ** Pieces separated by commas *)

Lemma split_sep_from_piece (t : string) :
  forall cur rest,
    Py.contains ","%char t = false ->
    Py.split_sep_from ","%char (t ++ rest) cur
    = Py.split_sep_from ","%char rest (cur ++ t).
Proof.
  induction t as [|c t IH]; intros cur rest H; simpl in *.
  - now rewrite append_nil_r.
  - apply orb_false_iff in H. destruct H as [Hc Ht].
    rewrite Hc, (IH _ _ Ht), append_assoc. reflexivity.
Qed.

Lemma join_comma_cons (t : string) (ts : list string) :
  Py.join "," (t :: ts)
  = match ts with [] => t | _ => t ++ "," ++ Py.join "," ts end.
Proof. reflexivity. Qed.

Lemma split_sep_join (tokens : list string) :
  tokens <> [] ->
  Forall (fun t => Py.contains ","%char t = false) tokens ->
  Py.split_sep ","%char (Py.join "," tokens) = tokens.
Proof.
  unfold Py.split_sep. intros Hne H.
  induction H as [|t ts Ht Hts IH]; [congruence|].
  rewrite join_comma_cons. destruct ts as [|t' ts'].
  - rewrite <- (append_nil_r t) at 1.
    now rewrite split_sep_from_piece by exact Ht.
  - rewrite split_sep_from_piece by exact Ht. cbn [append Py.split_sep_from].
    change (Ascii.eqb "," ",") with true. cbn iota. f_equal.
    apply IH. discriminate.
Qed.

(** X20.  As soon as a line holds a comma, only commas separate: two or
    more pieces joined by commas come back as they are, with the blanks
    they may hold. *)
Theorem comma_split_joined (t1 t2 : string) (ts : list string) :
  Forall (fun t => Py.contains ","%char t = false) (t1 :: t2 :: ts) ->
  comma_or_space_split (Py.join "," (t1 :: t2 :: ts)) = t1 :: t2 :: ts.
Proof.
  intros H. unfold comma_or_space_split.
  assert (E : Py.contains ","%char (Py.join "," (t1 :: t2 :: ts)) = true).
  { rewrite join_comma_cons, !contains_append. cbn [Py.contains].
    change (Ascii.eqb "," ",") with true. cbn [orb]. apply orb_true_r. }
  rewrite E. apply split_sep_join; [discriminate | exact H].
Qed.

Lemma comma_split_joined_witness :
  Forall (fun t => Py.contains ","%char t = false) ["65"; " 66"; ""; "67 "]
  /\ comma_or_space_split "65, 66,,67 " = ["65"; " 66"; ""; "67 "].
Proof.
  assert (H : Forall (fun t => Py.contains ","%char t = false)
                     ["65"; " 66"; ""; "67 "]) by (repeat constructor).
  split; [exact H | exact (comma_split_joined "65" " 66" [""; "67 "] H)].
Defined.
